(** * Molecular descriptor generator: a shallow embedding

    Model of [molecular_descriptor_generator.py]: conformer generation with
    six methods, repeated descriptor computation, reduction of the per-molecule
    distributions to summary statistics, assembly and cleaning of the final
    feature matrix.

    Conventions of the model
    - floating point numbers are idealised as rationals [Q]; the missing
      value of pandas is the constructor [NaN];
    - RDKit, mordred and the float/text conversions are external: they are
      the fields of the class [Motor];
    - the stochastic embedder threads an explicit generator state [rng];
    - Python exceptions are the constructor [Lanza] of [resultado];
    - console output ([print]) is not modelled. *)

From Stdlib Require Import ZArith QArith Qround List String Ascii Bool Lia.
From Stdlib Require Import DecimalString Lqa Sorted.
From stdpp Require Import base option list gmap.
Import ListNotations.

Local Open Scope nat_scope.

(** ** Values and tables *)

(** A cell of a pandas object column: a float, the missing value, or any
    other object, identified with its textual representation. *)
Inductive valor : Type :=
| Num (q : Q)
| NaN
| Obj (s : string).

(** A DataFrame with the default positional row index. *)
Record DataFrame : Type := mkDataFrame {
  columns : list string;
  filas : list (list valor)
}.

(** The result of [describe]: rows labelled by statistic. *)
Record Resumen : Type := mkResumen {
  indice : list string;
  columnas : list string;
  valores : list (list valor)
}.

Inductive excepcion : Type :=
| KeyError (k : nat)
| KeyErrorColumna (c : string)
| IndexError
| TypeError
| ValueError
| ArgumentError.

Inductive resultado (A : Type) : Type :=
| Devuelve (a : A)
| Lanza (e : excepcion).
Arguments Devuelve {A} a.
Arguments Lanza {A} e.

Definition ligar {A B} (x : resultado A) (f : A -> resultado B) : resultado B :=
  match x with
  | Devuelve a => f a
  | Lanza e => Lanza e
  end.

Notation "'haz' x <- c ; k" := (ligar c (fun x => k))
  (at level 10, x name, c at level 100, k at level 200).

(** Embedding parameter sets used by the script. *)
Inductive parametros : Type :=
| Basico      (* useBasicKnowledge=False, useExpTorsionAnglePrefs=False *)
| ETDG
| KDG
| ETKDG
| ETKDGv2.

(** ** External collaborators *)

Class Motor : Type := {
  mol : Type;
  rng : Type;
  descriptor : Type;
  MolFromSmiles : string -> option mol;
  AddHs : mol -> mol;
  EmbedMolecule : parametros -> mol -> rng -> mol * rng;
  UFFHasAllMoleculeParams : mol -> bool;
  UFFOptimizeMolecule : mol -> mol;
  MMFFHasAllMoleculeParams : mol -> bool;
  MMFFOptimizeMolecule : mol -> mol;
  (* mordred *)
  descriptores_motor : list descriptor;
  nombre : descriptor -> string;
  requiere_3D : descriptor -> bool;
  evaluar_3D : descriptor -> mol -> option Q;
  evaluar_2D : descriptor -> mol -> valor;
  (* numerics and text *)
  raiz : Q -> Q;
  repr_float : Q -> string;
  float_de : string -> option Q
}.

(** ** A small engine to run the model on

    Molecules are a pair (number of characters of the line notation, stamp of
    the last embedding); the generator state is a counter.  UFF has
    parameters for molecules of fewer than 5 characters, MMFF for fewer
    than 4.  Floats are printed as [numerator/denominator]. *)

Module Juguete.

Definition texto_de_Z (z : Z) : string := NilZero.string_of_int (Z.to_int z).

Definition repr (q : Q) : string :=
  String.append (texto_de_Z (Qnum q))
    (String.append "/" (texto_de_Z (Zpos (Qden q)))).

Fixpoint partir (s : string) : string * option string :=
  match s with
  | EmptyString => (EmptyString, None)
  | String c t =>
      if Ascii.eqb c "/"%char then (EmptyString, Some t)
      else let '(a, b) := partir t in (String c a, b)
  end.

Definition leer (s : string) : option Q :=
  match partir s with
  | (a, Some b) =>
      match NilZero.int_of_string a, NilZero.int_of_string b with
      | Some n, Some d =>
          match Z.of_int d with
          | Zpos p => Some (Z.of_int n # p)
          | _ => None
          end
      | _, _ => None
      end
  | (a, None) => option_map (fun n => inject_Z (Z.of_int n)) (NilZero.int_of_string a)
  end.

Definition evaluar3 (d : string * bool) (m : nat * nat) : option Q :=
  if String.eqb (fst d) "TPSA" then Some (inject_Z (Z.of_nat (10 * fst m + snd m)))
  else if Nat.eqb (fst m) 2 then None
  else Some (inject_Z (Z.of_nat (snd m)) / 2)%Q.

Definition evaluar2 (d : string * bool) (m : nat * nat) : valor :=
  if String.eqb (fst d) "nAtom" then Num (inject_Z (Z.of_nat (fst m)))
  else Obj "True".

Definition motor : Motor :=
  {| mol := nat * nat;
     rng := nat;
     descriptor := string * bool;
     MolFromSmiles := fun s =>
       match s with
       | EmptyString => None
       | _ => Some (String.length s, 0)
       end;
     AddHs := fun m => m;
     EmbedMolecule := fun _ m r => ((fst m, r), S r);
     UFFHasAllMoleculeParams := fun m => fst m <? 5;
     UFFOptimizeMolecule := fun m => m;
     MMFFHasAllMoleculeParams := fun m => fst m <? 4;
     MMFFOptimizeMolecule := fun m => m;
     descriptores_motor :=
       [ ("nAtom"%string, false); ("TPSA"%string, true);
         ("Lipinski"%string, false); ("GeomRadius"%string, true);
         ("Fantasma3D"%string, true) ];
     nombre := fst;
     requiere_3D := snd;
     evaluar_3D := evaluar3;
     evaluar_2D := evaluar2;
     raiz := fun q => (Z.sqrt (Qnum q * Zpos (Qden q)) # Qden q);
     repr_float := repr;
     float_de := leer |}.

(** Whether a run returned. *)
Definition devolvio {A} (x : resultado A * nat) : bool :=
  match x with
  | (Devuelve _, _) => true
  | (Lanza _, _) => false
  end.

(** Inputs of the examples. *)

(** Four molecules, all within reach of both force fields except the last
    for MMFF; the second row has no value in the column [id]. *)
Definition df_cuatro : DataFrame :=
  {| columns := ["id"; "SMILES"]%string;
     filas := [ [Num 1; Obj "C"]; [NaN; Obj "CC"];
                [Num 3; Obj "CCC"]; [Num 4; Obj "CCCC"] ] |}.




(** Two molecules. *)
Definition df_dos : DataFrame :=
  {| columns := ["SMILES"]%string;
     filas := [ [Obj "C"]; [Obj "CC"] ] |}.



(** A combined matrix with an error text of the descriptor engine. *)
Definition matriz_con_texto : DataFrame :=
  {| columns := ["A"; "B"]%string;
     filas := [ [Num 1; Obj "division by zero"]; [Num 2; Num 3] ] |}.

End Juguete.

Section Modelo.
Context {M : Motor}.

(** ** Conformer generation (lines 49-187) *)

Fixpoint generar_conformacion_uff (lista_moleculas : list mol) (r : rng)
  : list mol * rng :=
  match lista_moleculas with
  | [] => ([], r)
  | molecula :: resto =>
      let mol_con_hidrogenos := AddHs molecula in
      let '(embebida, r1) := EmbedMolecule Basico mol_con_hidrogenos r in
      let '(moleculas_uff, r2) := generar_conformacion_uff resto r1 in
      if UFFHasAllMoleculeParams embebida
      then (UFFOptimizeMolecule embebida :: moleculas_uff, r2)
      else (moleculas_uff, r2)
  end.

Fixpoint generar_conformacion_mmff (lista_moleculas : list mol) (r : rng)
  : list mol * rng :=
  match lista_moleculas with
  | [] => ([], r)
  | molecula :: resto =>
      let mol_con_hidrogenos := AddHs molecula in
      let '(embebida, r1) := EmbedMolecule Basico mol_con_hidrogenos r in
      let '(moleculas_mmff, r2) := generar_conformacion_mmff resto r1 in
      if MMFFHasAllMoleculeParams embebida
      then (MMFFOptimizeMolecule embebida :: moleculas_mmff, r2)
      else (moleculas_mmff, r2)
  end.

Fixpoint generar_conformacion_etdg (lista_moleculas : list mol) (r : rng)
  : list mol * rng :=
  match lista_moleculas with
  | [] => ([], r)
  | molecula :: resto =>
      let '(embebida, r1) := EmbedMolecule ETDG (AddHs molecula) r in
      let '(moleculas_etdg, r2) := generar_conformacion_etdg resto r1 in
      (embebida :: moleculas_etdg, r2)
  end.

Fixpoint generar_conformacion_kdg (lista_moleculas : list mol) (r : rng)
  : list mol * rng :=
  match lista_moleculas with
  | [] => ([], r)
  | molecula :: resto =>
      let '(embebida, r1) := EmbedMolecule KDG (AddHs molecula) r in
      let '(moleculas_kdg, r2) := generar_conformacion_kdg resto r1 in
      (embebida :: moleculas_kdg, r2)
  end.

(** The version test sits inside the loop: it is reached once per molecule,
    and never for an empty list.  On an invalid version the function prints
    a message and returns Python's [None]; it has no [raise]. *)
Fixpoint bucle_etkdg (lista_moleculas : list mol) (version : Z)
  (moleculas_etkdg : list mol) (r : rng) : resultado (option (list mol)) * rng :=
  match lista_moleculas with
  | [] => (Devuelve (Some moleculas_etkdg), r)
  | molecula :: resto =>
      let mol_con_hidrogenos := AddHs molecula in
      if (version =? 1)%Z then
        let '(embebida, r1) := EmbedMolecule ETKDG mol_con_hidrogenos r in
        bucle_etkdg resto version (moleculas_etkdg ++ [embebida]) r1
      else if (version =? 2)%Z then
        let '(embebida, r1) := EmbedMolecule ETKDGv2 mol_con_hidrogenos r in
        bucle_etkdg resto version (moleculas_etkdg ++ [embebida]) r1
      else (Devuelve None, r)
  end.

Definition generar_conformacion_etkdg (lista_moleculas : list mol) (version : Z)
  : rng -> resultado (option (list mol)) * rng :=
  fun r =>
  bucle_etkdg lista_moleculas version [] r.

(** ** pandas: the operations the script uses *)

Definition add_suffix (sufijo : string) (df : DataFrame) : DataFrame :=
  {| columns := map (fun c => String.append c sufijo) (columns df);
     filas := filas df |}.

(** Row [i] of a frame, or a row of missing values when the frame has no
    such row: what an outer join on the row index fills in. *)
Definition fila_o_faltante (df : DataFrame) (i : nat) : list valor :=
  match filas df !! i with
  | Some f => f
  | None => replicate (length (columns df)) NaN
  end.

(** [pd.concat([a, b], axis=1)] for frames with the default row index. *)
Definition concat_axis1 (a b : DataFrame) : DataFrame :=
  {| columns := columns a ++ columns b;
     filas := map (fun i => fila_o_faltante a i ++ fila_o_faltante b i)
                  (seq 0 (Nat.max (length (filas a)) (length (filas b)))) |}.

(** [df.iloc[i]] *)
Definition iloc (df : DataFrame) (i : nat) : resultado (list valor) :=
  match filas df !! i with
  | Some f => Devuelve f
  | None => Lanza IndexError
  end.

(** [df.append(serie, ignore_index=True)]: the first row brings its labels;
    later rows carry the same labels (every repetition table has the same
    columns), so they are appended position by position. *)
Definition append_serie (df : DataFrame) (etiquetas : list string)
  (serie : list valor) : DataFrame :=
  match filas df with
  | [] => {| columns := etiquetas; filas := [serie] |}
  | _ => {| columns := columns df; filas := filas df ++ [serie] |}
  end.

Definition columna (j : nat) (df : DataFrame) : list valor :=
  map (fun f => nth j f NaN) (filas df).

(** *** Descriptive statistics of one column *)

Definition validos (col : list valor) : list Q :=
  flat_map (fun v => match v with Num q => [q] | _ => [] end) col.

Fixpoint insertar (x : Q) (l : list Q) : list Q :=
  match l with
  | [] => [x]
  | y :: t => if Qle_bool x y then x :: l else y :: insertar x t
  end.

Definition ordenar (l : list Q) : list Q := fold_right insertar [] l.

(** Sums are kept in lowest terms. *)
Definition suma (l : list Q) : Q := fold_right (fun x s => Qred (x + s)) 0%Q l.

Definition Qnat (n : nat) : Q := inject_Z (Z.of_nat n).

Definition s_count (col : list valor) : valor :=
  Num (Qnat (length (validos col))).

Definition s_mean (col : list valor) : valor :=
  match validos col with
  | [] => NaN
  | v => Num (suma v / Qnat (length v))
  end.

(** Sample standard deviation (one degree of freedom removed). *)
Definition s_std (col : list valor) : valor :=
  let v := validos col in
  if length v <? 2 then NaN
  else
    let m := (suma v / Qnat (length v))%Q in
    Num (raiz (suma (map (fun x => ((x - m) * (x - m))%Q) v)
               / Qnat (length v - 1))).

Definition s_min (col : list valor) : valor :=
  match ordenar (validos col) with
  | [] => NaN
  | x :: _ => Num x
  end.

Definition s_max (col : list valor) : valor :=
  match ordenar (validos col) with
  | [] => NaN
  | x :: t => Num (List.last t x)
  end.

(** Quantile with linear interpolation between the two nearest ranks. *)
Definition s_cuantil (p : Q) (col : list valor) : valor :=
  match ordenar (validos col) with
  | [] => NaN
  | x0 :: t =>
      let v := x0 :: t in
      let pos := (Qnat (length v - 1) * p)%Q in
      let abajo := Z.to_nat (Qfloor pos) in
      let a := nth abajo v x0 in
      let b := nth (S abajo) v a in
      Num (a + (pos - inject_Z (Qfloor pos)) * (b - a))
  end.

(** The rows of [describe], in pandas' order. *)
Definition estadisticos : list (string * (list valor -> valor)) :=
  [ ("count"%string, s_count); ("mean"%string, s_mean); ("std"%string, s_std);
    ("min"%string, s_min); ("25%"%string, s_cuantil (1 # 4));
    ("50%"%string, s_cuantil (1 # 2)); ("75%"%string, s_cuantil (3 # 4));
    ("max"%string, s_max) ].

(** [df.describe()]; pandas refuses a frame without columns. *)
Definition describe (df : DataFrame) : resultado Resumen :=
  match columns df with
  | [] => Lanza ValueError
  | _ =>
      Devuelve
        {| indice := map fst estadisticos;
           columnas := columns df;
           valores :=
             map (fun e => map (fun j => snd e (columna j df))
                               (seq 0 (length (columns df))))
                 estadisticos |}
  end.

(** Row slice [e[k:]] of a summary. *)
Definition desde (k : nat) (e : Resumen) : Resumen :=
  {| indice := drop k (indice e);
     columnas := columnas e;
     valores := drop k (valores e) |}.

(** ** Descriptor catalog (lines 218-282) *)

Definition nombres_descriptores_3d : list string := [
  "PNSA1"; "PNSA2"; "PNSA3"; "PNSA4"; "PNSA5"; "PPSA1"; "PPSA2"; "PPSA3";
    "PPSA4"; "PPSA5"; "DPSA1"; "DPSA2"; "DPSA3"; "DPSA4"; "DPSA5"; "FNSA1";
    "FNSA2"; "FNSA3"; "FNSA4"; "FNSA5"; "FPSA1"; "FPSA2"; "FPSA3"; "FPSA4";
    "FPSA5"; "WNSA1"; "WNSA2"; "WNSA3"; "WNSA4"; "WNSA5"; "WPSA1"; "WPSA2";
    "WPSA3"; "WPSA4"; "WPSA5"; "RNCS"; "RPCS"; "TASA"; "TPSA"; "RASA";
    "RPSA"; "GeomDiameter"; "GeomRadius"; "GeomShapeIndex";
    "GeomPetitjeanIndex"; "GRAV"; "GRAVH"; "GRAVp"; "GRAVHp"; "Mor01";
    "Mor02"; "Mor03"; "Mor04"; "Mor05"; "Mor06"; "Mor07"; "Mor08"; "Mor09";
    "Mor10"; "Mor11"; "Mor12"; "Mor13"; "Mor14"; "Mor15"; "Mor16"; "Mor17";
    "Mor18"; "Mor19"; "Mor20"; "Mor21"; "Mor22"; "Mor23"; "Mor24"; "Mor25";
    "Mor26"; "Mor27"; "Mor28"; "Mor29"; "Mor30"; "Mor31"; "Mor32"; "Mor01m";
    "Mor02m"; "Mor03m"; "Mor04m"; "Mor05m"; "Mor06m"; "Mor07m"; "Mor08m";
    "Mor09m"; "Mor10m"; "Mor11m"; "Mor12m"; "Mor13m"; "Mor14m"; "Mor15m";
    "Mor16m"; "Mor17m"; "Mor18m"; "Mor19m"; "Mor20m"; "Mor21m"; "Mor22m";
    "Mor23m"; "Mor24m"; "Mor25m"; "Mor26m"; "Mor27m"; "Mor28m"; "Mor29m";
    "Mor30m"; "Mor31m"; "Mor32m"; "Mor01v"; "Mor02v"; "Mor03v"; "Mor04v";
    "Mor05v"; "Mor06v"; "Mor07v"; "Mor08v"; "Mor09v"; "Mor10v"; "Mor11v";
    "Mor12v"; "Mor13v"; "Mor14v"; "Mor15v"; "Mor16v"; "Mor17v"; "Mor18v";
    "Mor19v"; "Mor20v"; "Mor21v"; "Mor22v"; "Mor23v"; "Mor24v"; "Mor25v";
    "Mor26v"; "Mor27v"; "Mor28v"; "Mor29v"; "Mor30v"; "Mor31v"; "Mor32v";
    "Mor01se"; "Mor02se"; "Mor03se"; "Mor04se"; "Mor05se"; "Mor06se";
    "Mor07se"; "Mor08se"; "Mor09se"; "Mor10se"; "Mor11se"; "Mor12se";
    "Mor13se"; "Mor14se"; "Mor15se"; "Mor16se"; "Mor17se"; "Mor18se";
    "Mor19se"; "Mor20se"; "Mor21se"; "Mor22se"; "Mor23se"; "Mor24se";
    "Mor25se"; "Mor26se"; "Mor27se"; "Mor28se"; "Mor29se"; "Mor30se";
    "Mor31se"; "Mor32se"; "Mor01p"; "Mor02p"; "Mor03p"; "Mor04p"; "Mor05p";
    "Mor06p"; "Mor07p"; "Mor08p"; "Mor09p"; "Mor10p"; "Mor11p"; "Mor12p";
    "Mor13p"; "Mor14p"; "Mor15p"; "Mor16p"; "Mor17p"; "Mor18p"; "Mor19p";
    "Mor20p"; "Mor21p"; "Mor22p"; "Mor23p"; "Mor24p"; "Mor25p"; "Mor26p";
    "Mor27p"; "Mor28p"; "Mor29p"; "Mor30p"; "Mor31p"; "Mor32p"; "MOMI-X";
    "MOMI-Y"; "MOMI-Z"; "PBF" ]%string.

(** [Calculator(descriptors, ignore_3D=False)] offers every descriptor of the
    engine; the script keeps those whose name is on the list. *)
Definition descriptores_filtrados : list descriptor :=
  List.filter (fun d => existsb (String.eqb (nombre d)) nombres_descriptores_3d)
              descriptores_motor.

Definition celda_float (x : option Q) : valor :=
  match x with
  | Some q => Num q
  | None => NaN
  end.

(** [calculador_3d.pandas(moleculas)] *)
Definition calculador_3d (moleculas : list mol) : DataFrame :=
  {| columns := map nombre descriptores_filtrados;
     filas := map (fun m => map (fun d => celda_float (evaluar_3D d m))
                                descriptores_filtrados) moleculas |}.

(** [Calculator(descriptors, ignore_3D=True).pandas(moleculas)] *)
Definition calculador_2d (moleculas : list mol) : DataFrame :=
  let ds := List.filter (fun d => negb (requiere_3D d)) descriptores_motor in
  {| columns := map nombre ds;
     filas := map (fun m => map (fun d => evaluar_2D d m) ds) moleculas |}.

(** ** Programs: generator state and exceptions *)

Definition prog (A : Type) : Type := rng -> resultado A * rng.

Definition retornar {A} (a : A) : prog A := fun r => (Devuelve a, r).

Definition lanzar {A} (e : excepcion) : prog A := fun r => (Lanza e, r).

Definition ligar_prog {A B} (x : prog A) (f : A -> prog B) : prog B :=
  fun r =>
    match x r with
    | (Devuelve a, r') => f a r'
    | (Lanza e, r') => (Lanza e, r')
    end.

Definition con_estado {A} (f : rng -> A * rng) : prog A :=
  fun r => let '(a, r') := f r in (Devuelve a, r').

Definition puro {A} (x : resultado A) : prog A := fun r => (x, r).

Notation "'sea' x <~ c ; k" := (ligar_prog c (fun x => k))
  (at level 10, x name, c at level 100, k at level 200).

(** Iterating over the value returned by the ETKDG generator: [None] is not
    iterable. *)
Definition iterable (x : option (list mol)) : prog (list mol) :=
  match x with
  | Some l => retornar l
  | None => lanzar TypeError
  end.

(** ** Ensemble sampler (lines 291-324) *)

(** One pass of the loop body: the table stored under the repetition. *)
Definition tabla_iteracion (moleculas : list mol) : prog DataFrame :=
  sea c2 <~ generar_conformacion_etkdg moleculas 2;
  sea m2 <~ iterable c2;
  let df_etkdgv2 := calculador_3d m2 in
  let tabla := df_etkdgv2 in
  sea c1 <~ generar_conformacion_etkdg moleculas 1;
  sea m1 <~ iterable c1;
  let df_etkdgv1 := calculador_3d m1 in
  let tabla := concat_axis1 tabla (add_suffix "_ETKDG" df_etkdgv1) in
  sea m_etdg <~ con_estado (generar_conformacion_etdg moleculas);
  let df_etdg := calculador_3d m_etdg in
  let tabla := concat_axis1 tabla (add_suffix "_ETDG" df_etdg) in
  sea m_kdg <~ con_estado (generar_conformacion_kdg moleculas);
  let df_kdg := calculador_3d m_kdg in
  let tabla := concat_axis1 tabla (add_suffix "_KDG" df_kdg) in
  sea m_uff <~ con_estado (generar_conformacion_uff moleculas);
  let df_uff := calculador_3d m_uff in
  let tabla := concat_axis1 tabla (add_suffix "_DGuff" df_uff) in
  sea m_mmff <~ con_estado (generar_conformacion_mmff moleculas);
  let df_mmff := calculador_3d m_mmff in
  let tabla := concat_axis1 tabla (add_suffix "_DGmmff" df_mmff) in
  retornar tabla.

Fixpoint bucle_iteraciones (lista_iteraciones : list nat) (moleculas : list mol)
  (resultados_descriptores : gmap nat DataFrame) : prog (gmap nat DataFrame) :=
  match lista_iteraciones with
  | [] => retornar resultados_descriptores
  | iteracion :: resto =>
      sea tabla <~ tabla_iteracion moleculas;
      bucle_iteraciones resto moleculas
        (<[iteracion := tabla]> resultados_descriptores)
  end.

(** [d[k]] on a dictionary keyed by integers. *)
Definition buscar {A} (d : gmap nat A) (k : nat) : resultado A :=
  match d !! k with
  | Some a => Devuelve a
  | None => Lanza (KeyError k)
  end.

(** ** Distribution reducer (lines 338-352) *)

Definition DataFrame_vacio : DataFrame := {| columns := []; filas := [] |}.

(** The inner loop: the row of the molecule in every repetition table. *)
Fixpoint recopilar (resultados_descriptores : gmap nat DataFrame)
  (lista_iteraciones : list nat) (indice_molecula : nat)
  (valores_molecula : DataFrame) : resultado DataFrame :=
  match lista_iteraciones with
  | [] => Devuelve valores_molecula
  | iteracion :: resto =>
      haz tabla <- buscar resultados_descriptores iteracion;
      haz serie_valores <- iloc tabla indice_molecula;
      recopilar resultados_descriptores resto indice_molecula
        (append_serie valores_molecula (columns tabla) serie_valores)
  end.

(** [valores_molecula.describe()[3:]] *)
Definition estadisticas_molecula (resultados_descriptores : gmap nat DataFrame)
  (lista_iteraciones : list nat) (indice_molecula : nat) : resultado Resumen :=
  haz valores_molecula <-
    recopilar resultados_descriptores lista_iteraciones indice_molecula
              DataFrame_vacio;
  haz resumen <- describe valores_molecula;
  Devuelve (desde 3 resumen).

Fixpoint bucle_estadisticas (resultados_descriptores : gmap nat DataFrame)
  (lista_iteraciones indices_moleculas : list nat)
  (estadisticas_distribucion : gmap nat Resumen)
  : resultado (gmap nat Resumen) :=
  match indices_moleculas with
  | [] => Devuelve estadisticas_distribucion
  | indice_molecula :: resto =>
      haz e <- estadisticas_molecula resultados_descriptores lista_iteraciones
                 indice_molecula;
      bucle_estadisticas resultados_descriptores lista_iteraciones resto
        (<[indice_molecula := e]> estadisticas_distribucion)
  end.

(** ** Feature matrix assembler (lines 366-401) *)

Definition nombres_columnas_finales (muestra_estadisticas : Resumen)
  : list string :=
  let indices_estadisticas := seq 0 (length (indice muestra_estadisticas)) in
  let indices_descriptores := seq 0 (length (columnas muestra_estadisticas)) in
  flat_map
    (fun indice_descriptor =>
       map (fun indice_estadistica =>
              String.append
                (nth indice_estadistica (indice muestra_estadisticas) ""%string)
                (nth indice_descriptor (columnas muestra_estadisticas) ""%string))
           indices_estadisticas)
    indices_descriptores.

(** [e.values.reshape(1, len(e) * len(e.T), order='F')]: the cells read
    column by column. *)
Definition reshape_F (e : Resumen) : list valor :=
  flat_map (fun j => map (fun fila => nth j fila NaN) (valores e))
           (seq 0 (length (columnas e))).

Fixpoint bucle_matriz (resultados_descriptores : gmap nat DataFrame)
  (lista_iteraciones indices_moleculas : list nat)
  (matriz : list (list valor)) : resultado (list (list valor)) :=
  match indices_moleculas with
  | [] => Devuelve matriz
  | indice_molecula :: resto =>
      haz estadisticas <- estadisticas_molecula resultados_descriptores
                            lista_iteraciones indice_molecula;
      let fila_estadisticas := reshape_F estadisticas in
      bucle_matriz resultados_descriptores lista_iteraciones resto
        (matriz ++ [fila_estadisticas])
  end.

(** Width of a frame grown by appending one-row frames labelled
    [0 .. len-1]: the longest row; shorter rows are completed with missing
    values. *)
Definition ancho (fs : list (list valor)) : nat :=
  fold_right Nat.max 0 (map (@length valor) fs).

Definition completar (w : nat) (f : list valor) : list valor :=
  f ++ replicate (w - length f) NaN.

(** [matriz.columns = [nombres]]: pandas checks the number of labels. *)
Definition asignar_columnas (fs : list (list valor)) (nombres : list string)
  : resultado DataFrame :=
  if length nombres =? ancho fs
  then Devuelve {| columns := nombres; filas := map (completar (ancho fs)) fs |}
  else Lanza ValueError.

(** ** Cleaning (lines 429-446) *)

Definition es_letra (c : ascii) : bool :=
  let n := nat_of_ascii c in
  ((65 <=? n) && (n <=? 90)) || ((97 <=? n) && (n <=? 122)).

(** [str.contains('[a-zA-Z]')] *)
Fixpoint contiene_letra (s : string) : bool :=
  match s with
  | EmptyString => false
  | String c t => es_letra c || contiene_letra t
  end.

Definition astype_str (v : valor) : string :=
  match v with
  | Num q => repr_float q
  | NaN => "nan"
  | Obj s => s
  end.

(** One cell through [astype(str)], the mask and [limpieza[~mascara]]:
    a masked cell becomes missing, the others keep their text. *)
Definition enmascarar (v : valor) : valor :=
  let texto := astype_str v in
  if contiene_letra texto then NaN else Obj texto.

(** [astype(float)] on one cell. *)
Definition astype_float (v : valor) : resultado valor :=
  match v with
  | Num q => Devuelve (Num q)
  | NaN => Devuelve NaN
  | Obj s =>
      match float_de s with
      | Some q => Devuelve (Num q)
      | None => Lanza ValueError
      end
  end.

Definition fillna (marca : string) (v : valor) : valor :=
  match v with
  | NaN => Obj marca
  | _ => v
  end.

Fixpoint para_todos {A B} (f : A -> resultado B) (l : list A)
  : resultado (list B) :=
  match l with
  | [] => Devuelve []
  | a :: t =>
      haz b <- f a;
      haz bs <- para_todos f t;
      Devuelve (b :: bs)
  end.

Definition limpiar (matriz_completa_descriptores : DataFrame)
  : resultado DataFrame :=
  let matriz_limpia := map (map enmascarar) (filas matriz_completa_descriptores) in
  haz flotantes <- para_todos (para_todos astype_float) matriz_limpia;
  Devuelve {| columns := columns matriz_completa_descriptores;
              filas := map (map (fillna "NA")) flotantes |}.

(** ** The script, top to bottom *)

Definition numero_iteraciones : nat := 50.

Fixpoint posicion (c : string) (cs : list string) : option nat :=
  match cs with
  | [] => None
  | x :: t => if String.eqb x c then Some 0 else option_map S (posicion c t)
  end.

(** [df[c]] *)
Definition columna_por_nombre (df : DataFrame) (c : string)
  : resultado (list valor) :=
  match posicion c (columns df) with
  | Some j => Devuelve (columna j df)
  | None => Lanza (KeyErrorColumna c)
  end.

(** Lines 36-43: one molecule per row; a line notation that does not parse
    gives [None]. *)
Definition cargar_moleculas (df_original : DataFrame)
  : resultado (list (option mol)) :=
  haz lista_smiles <- columna_por_nombre df_original "SMILES";
  para_todos (fun v => match v with
                       | Obj smile => Devuelve (MolFromSmiles smile)
                       | _ => Lanza TypeError
                       end) lista_smiles.

(** [Chem.AddHs] refuses [None]: the first generator call stops the run when
    some molecule did not parse. *)
Definition moleculas_validas (moleculas_base : list (option mol))
  : resultado (list mol) :=
  para_todos (fun m => match m with
                       | Some x => Devuelve x
                       | None => Lanza ArgumentError
                       end) moleculas_base.

Record salida : Type := mkSalida {
  moleculas_para_conformaciones : list mol;
  conformaciones_uff : list mol;
  indices_moleculas : list nat;
  resultados_descriptores : gmap nat DataFrame;
  estadisticas_distribucion : gmap nat Resumen;
  columnas_finales : list string;
  matriz_descriptores_estadisticos : DataFrame;
  matriz_descriptores_2d : DataFrame;
  matriz_numerica : DataFrame;
  dataset_final : DataFrame
}.

Definition analisis (df_original : DataFrame) : prog salida :=
  sea moleculas_base <~ puro (cargar_moleculas df_original);
  sea moleculas <~ puro (moleculas_validas moleculas_base);
  (* lines 196-199 *)
  sea confs_uff <~ con_estado (generar_conformacion_uff moleculas);
  sea confs_etdg <~ con_estado (generar_conformacion_etdg moleculas);
  sea confs_etkdgv1 <~ generar_conformacion_etkdg moleculas 1;
  sea confs_etkdgv2 <~ generar_conformacion_etkdg moleculas 2;
  (* lines 206-208 *)
  let lista_iteraciones := seq 0 numero_iteraciones in
  let indices := seq 0 (length confs_uff) in
  (* lines 291-329 *)
  sea resultados <~ bucle_iteraciones lista_iteraciones moleculas ∅;
  sea ejemplo_resultados <~ puro (buscar resultados 1);
  (* lines 338-357 *)
  sea estadisticas <~
    puro (bucle_estadisticas resultados lista_iteraciones indices ∅);
  sea ejemplo_estadisticas <~ puro (buscar estadisticas 2);
  (* lines 366-401 *)
  sea muestra_estadisticas <~ puro (buscar estadisticas 1);
  let nombres := nombres_columnas_finales muestra_estadisticas in
  sea filas_matriz <~
    puro (bucle_matriz resultados lista_iteraciones indices []);
  sea matriz_estadisticos <~ puro (asignar_columnas filas_matriz nombres);
  (* lines 412-418 *)
  let matriz_2d := calculador_2d moleculas in
  (* lines 429-446 *)
  let matriz_completa_descriptores := concat_axis1 matriz_2d matriz_estadisticos in
  sea numerica <~ puro (limpiar matriz_completa_descriptores);
  (* line 457 *)
  retornar
    {| moleculas_para_conformaciones := moleculas;
       conformaciones_uff := confs_uff;
       indices_moleculas := indices;
       resultados_descriptores := resultados;
       estadisticas_distribucion := estadisticas;
       columnas_finales := nombres;
       matriz_descriptores_estadisticos := matriz_estadisticos;
       matriz_descriptores_2d := matriz_2d;
       matriz_numerica := numerica;
       dataset_final := concat_axis1 df_original numerica |}.

(** ** Reference definitions for the statements *)

(** Every molecule of the list with hydrogens added and embedded, the
    generator state threaded from one molecule to the next. *)
Fixpoint embeber_todas (p : parametros) (lista_moleculas : list mol) (r : rng)
  : list mol * rng :=
  match lista_moleculas with
  | [] => ([], r)
  | molecula :: resto =>
      let '(embebida, r1) := EmbedMolecule p (AddHs molecula) r in
      let '(otras, r2) := embeber_todas p resto r1 in
      (embebida :: otras, r2)
  end.

(** The column suffix of each method, in the order of the loop body. *)
Definition sufijos_metodo : list string :=
  [ ""; "_ETKDG"; "_ETDG"; "_KDG"; "_DGuff"; "_DGmmff" ]%string.

Definition columnas_conjunto : list string :=
  flat_map (fun sufijo =>
              map (fun d => String.append (nombre d) sufijo) descriptores_filtrados)
           sufijos_metodo.

(** The cells that a list of conformers contributes to row [i] of a
    repetition table: the descriptors of the [i]-th conformer, or missing
    values when the list has no such conformer. *)
Definition bloque (confs : list mol) (i : nat) : list valor :=
  match confs !! i with
  | Some conf => map (fun d => celda_float (evaluar_3D d conf)) descriptores_filtrados
  | None => replicate (length descriptores_filtrados) NaN
  end.


(** What cleaning makes of a cell, read off its text. *)
Definition celda_limpia (v w : valor) : Prop :=
  if contiene_letra (astype_str v) then w = Obj "NA"
  else exists q, float_de (astype_str v) = Some q /\ w = Num q.

(** A cell that the float conversion refuses: text without letters that is
    not a float literal. *)
Definition celda_rechazada (v : valor) : Prop :=
  contiene_letra (astype_str v) = false /\ float_de (astype_str v) = None.

Fixpoint tiene_guion_bajo (s : string) : bool :=
  match s with
  | EmptyString => false
  | String c t => Ascii.eqb c "_" || tiene_guion_bajo t
  end.

(** The text before the first underscore. *)
Fixpoint hasta_guion_bajo (s : string) : string :=
  match s with
  | EmptyString => EmptyString
  | String c t =>
      if Ascii.eqb c "_" then EmptyString else String c (hasta_guion_bajo t)
  end.

(** The labels of the statistics the reducer keeps. *)
Definition etiquetas_estadisticas : list string :=
  ["min"; "25%"; "50%"; "75%"; "max"]%string.

(** Every row of a frame has one cell per column. *)
Definition bien_formado (df : DataFrame) : Prop :=
  Forall (fun f => length f = length (columns df)) (filas df).

(** What every repetition table looks like for a list of molecules. *)
Definition tabla_conjunto (moleculas : list mol) (tabla : DataFrame) : Prop :=
  columns tabla = columnas_conjunto
  /\ length (filas tabla) = length moleculas
  /\ bien_formado tabla.

(** What cleaning does to one cell. *)
Definition limpia (v w : valor) : Prop :=
  exists x, astype_float (enmascarar v) = Devuelve x /\ w = fillna "NA" x.

Definition es_faltante (v : valor) : bool :=
  match v with
  | NaN => true
  | _ => false
  end.

(** * Properties *)

(** ** Conformer generation *)

Lemma generar_conformacion_uff_filtra (ms : list mol) (r : rng) :
  generar_conformacion_uff ms r =
  (map UFFOptimizeMolecule
       (List.filter UFFHasAllMoleculeParams (embeber_todas Basico ms r).1),
   (embeber_todas Basico ms r).2).
Proof.
  revert r. induction ms as [|m ms IH]; intros r; simpl; [reflexivity|].
  destruct (EmbedMolecule Basico (AddHs m) r) as [e r1].
  rewrite IH. destruct (embeber_todas Basico ms r1) as [otras r2]. simpl.
  destruct (UFFHasAllMoleculeParams e); reflexivity.
Qed.

Lemma generar_conformacion_mmff_filtra (ms : list mol) (r : rng) :
  generar_conformacion_mmff ms r =
  (map MMFFOptimizeMolecule
       (List.filter MMFFHasAllMoleculeParams (embeber_todas Basico ms r).1),
   (embeber_todas Basico ms r).2).
Proof.
  revert r. induction ms as [|m ms IH]; intros r; simpl; [reflexivity|].
  destruct (EmbedMolecule Basico (AddHs m) r) as [e r1].
  rewrite IH. destruct (embeber_todas Basico ms r1) as [otras r2]. simpl.
  destruct (MMFFHasAllMoleculeParams e); reflexivity.
Qed.

Lemma length_embeber_todas (p : parametros) (ms : list mol) (r : rng) :
  length (embeber_todas p ms r).1 = length ms.
Proof.
  revert r. induction ms as [|m ms IH]; intros r; simpl; [reflexivity|].
  destruct (EmbedMolecule p (AddHs m) r) as [e r1].
  specialize (IH r1). destruct (embeber_todas p ms r1) as [otras r2].
  simpl in *. congruence.
Qed.

Lemma length_generar_conformacion_uff (ms : list mol) (r : rng) :
  length (generar_conformacion_uff ms r).1 <= length ms.
Proof.
  rewrite generar_conformacion_uff_filtra. simpl.
  rewrite length_map, <- (length_embeber_todas Basico ms r).
  apply List.filter_length_le.
Qed.

Lemma length_generar_conformacion_mmff (ms : list mol) (r : rng) :
  length (generar_conformacion_mmff ms r).1 <= length ms.
Proof.
  rewrite generar_conformacion_mmff_filtra. simpl.
  rewrite length_map, <- (length_embeber_todas Basico ms r).
  apply List.filter_length_le.
Qed.

(** C6. The UFF and MMFF generators return, in input order, the optimised
    conformers of exactly the embedded molecules that pass the parameter
    check of the force field: the others are left out, nothing is put in
    their place, and the result is no longer than the input. *)
Theorem C6_campos_de_fuerza_filtran (lista_moleculas : list mol) (r : rng) :
  let embebidas := (embeber_todas Basico lista_moleculas r).1 in
  (generar_conformacion_uff lista_moleculas r).1 =
    map UFFOptimizeMolecule (List.filter UFFHasAllMoleculeParams embebidas)
  /\ (generar_conformacion_mmff lista_moleculas r).1 =
    map MMFFOptimizeMolecule (List.filter MMFFHasAllMoleculeParams embebidas)
  /\ length embebidas = length lista_moleculas
  /\ length (generar_conformacion_uff lista_moleculas r).1
     = length (List.filter UFFHasAllMoleculeParams embebidas)
  /\ length (generar_conformacion_mmff lista_moleculas r).1
     = length (List.filter MMFFHasAllMoleculeParams embebidas)
  /\ length (generar_conformacion_uff lista_moleculas r).1
     <= length lista_moleculas
  /\ length (generar_conformacion_mmff lista_moleculas r).1
     <= length lista_moleculas.
Proof.
  cbv zeta.
  rewrite generar_conformacion_uff_filtra, generar_conformacion_mmff_filtra.
  simpl. rewrite !length_map.
  pose proof (length_generar_conformacion_uff lista_moleculas r) as Hu.
  pose proof (length_generar_conformacion_mmff lista_moleculas r) as Hm.
  rewrite generar_conformacion_uff_filtra in Hu.
  rewrite generar_conformacion_mmff_filtra in Hm.
  simpl in Hu, Hm. rewrite length_map in Hu, Hm.
  repeat split; auto using length_embeber_todas.
Qed.

(** The ETKDG loop with a valid version embeds every molecule. *)
Lemma bucle_etkdg_valida (ms : list mol) (version : Z) (acc : list mol) (r : rng) :
  version = 1%Z \/ version = 2%Z ->
  exists confs r',
    bucle_etkdg ms version acc r = (Devuelve (Some confs), r')
    /\ length confs = length acc + length ms.
Proof.
  intros Hv. revert acc r. induction ms as [|m ms IH]; intros acc r; simpl.
  - exists acc, r. split; [reflexivity | lia].
  - destruct Hv as [-> | ->]; simpl.
    + destruct (EmbedMolecule ETKDG (AddHs m) r) as [e r1].
      destruct (IH (acc ++ [e]) r1) as (c & r' & Hc & Hl).
      exists c, r'. split; [exact Hc|]. rewrite Hl, length_app. simpl. lia.
    + destruct (EmbedMolecule ETKDGv2 (AddHs m) r) as [e r1].
      destruct (IH (acc ++ [e]) r1) as (c & r' & Hc & Hl).
      exists c, r'. split; [exact Hc|]. rewrite Hl, length_app. simpl. lia.
Qed.

Lemma bucle_etkdg_no_lanza (ms : list mol) (version : Z) (acc : list mol) (r : rng) :
  exists x r', bucle_etkdg ms version acc r = (Devuelve x, r').
Proof.
  revert acc r. induction ms as [|m ms IH]; intros acc r; simpl; [eauto|].
  destruct (version =? 1)%Z.
  - destruct (EmbedMolecule ETKDG (AddHs m) r) as [e r1]. apply IH.
  - destruct (version =? 2)%Z; [|eauto].
    destruct (EmbedMolecule ETKDGv2 (AddHs m) r) as [e r1]. apply IH.
Qed.

(** C9 (as amended). An invalid version is not fatal: for a list with at
    least one molecule the ETKDG generator returns Python's [None] without
    raising and without touching the embedder; for an empty list it returns
    the empty list; and for no version at all does it raise. *)
Theorem C9_version_invalida_devuelve_None
  (molecula : mol) (resto : list mol) (version : Z) (r : rng) :
  version <> 1%Z -> version <> 2%Z ->
  generar_conformacion_etkdg (molecula :: resto) version r = (Devuelve None, r)
  /\ generar_conformacion_etkdg [] version r = (Devuelve (Some []), r)
  /\ (forall ms v r0, exists x r',
         generar_conformacion_etkdg ms v r0 = (Devuelve x, r')).
Proof.
  intros H1 H2. unfold generar_conformacion_etkdg. simpl.
  destruct (Z.eqb_spec version 1) as [?|_]; [contradiction|].
  destruct (Z.eqb_spec version 2) as [?|_]; [contradiction|].
  repeat split. intros ms v r0. apply bucle_etkdg_no_lanza.
Qed.

(** ** Tables *)

Lemma append_vacio (s : string) : String.append s "" = s.
Proof.
  induction s as [|c s IH]; [reflexivity|].
  change (String c (String.append s "") = String c s). now rewrite IH.
Qed.

Lemma bien_formado_calculador_3d (ms : list mol) : bien_formado (calculador_3d ms).
Proof.
  unfold bien_formado, calculador_3d. simpl. apply Forall_forall.
  intros f Hf. apply list_elem_of_In, in_map_iff in Hf.
  destruct Hf as (m & <- & _). now rewrite !length_map.
Qed.

Lemma bien_formado_add_suffix (suf : string) (df : DataFrame) :
  bien_formado df -> bien_formado (add_suffix suf df).
Proof. unfold bien_formado, add_suffix. simpl. now rewrite length_map. Qed.

Lemma length_fila_o_faltante (df : DataFrame) (i : nat) :
  bien_formado df -> length (fila_o_faltante df i) = length (columns df).
Proof.
  intros Hb. unfold fila_o_faltante.
  destruct (filas df !! i) as [f|] eqn:Hi.
  - eapply Forall_lookup_1 in Hb; eauto.
  - apply length_replicate.
Qed.

Lemma bien_formado_concat_axis1 (a b : DataFrame) :
  bien_formado a -> bien_formado b -> bien_formado (concat_axis1 a b).
Proof.
  intros Ha Hb. unfold bien_formado, concat_axis1. simpl.
  apply Forall_forall. intros f Hf.
  apply list_elem_of_In, in_map_iff in Hf. destruct Hf as (i & <- & _).
  rewrite !length_app, !length_fila_o_faltante; auto.
Qed.

Lemma filas_concat_axis1 (a b : DataFrame) :
  length (filas (concat_axis1 a b)) = Nat.max (length (filas a)) (length (filas b)).
Proof. unfold concat_axis1. simpl. now rewrite length_map, length_seq. Qed.

Lemma filas_calculador_3d (ms : list mol) :
  length (filas (calculador_3d ms)) = length ms.
Proof. unfold calculador_3d. simpl. apply length_map. Qed.

Lemma length_generar_conformacion_etdg (ms : list mol) (r : rng) :
  length (generar_conformacion_etdg ms r).1 = length ms.
Proof.
  revert r. induction ms as [|m ms IH]; intros r; simpl; [reflexivity|].
  destruct (EmbedMolecule ETDG (AddHs m) r) as [e r1].
  specialize (IH r1). destruct (generar_conformacion_etdg ms r1). simpl in *.
  congruence.
Qed.

Lemma length_generar_conformacion_kdg (ms : list mol) (r : rng) :
  length (generar_conformacion_kdg ms r).1 = length ms.
Proof.
  revert r. induction ms as [|m ms IH]; intros r; simpl; [reflexivity|].
  destruct (EmbedMolecule KDG (AddHs m) r) as [e r1].
  specialize (IH r1). destruct (generar_conformacion_kdg ms r1). simpl in *.
  congruence.
Qed.

Lemma generar_conformacion_etkdg_valida (ms : list mol) (version : Z) (r : rng) :
  version = 1%Z \/ version = 2%Z ->
  exists confs r',
    generar_conformacion_etkdg ms version r = (Devuelve (Some confs), r')
    /\ length confs = length ms.
Proof.
  intros Hv. unfold generar_conformacion_etkdg.
  destruct (bucle_etkdg_valida ms version [] r Hv) as (c & r' & Hc & Hl).
  exists c, r'. split; [exact Hc | exact Hl].
Qed.

(** ** Ensemble sampler *)

Lemma tabla_iteracion_conjunto (ms : list mol) (r : rng) :
  exists tabla r',
    tabla_iteracion ms r = (Devuelve tabla, r') /\ tabla_conjunto ms tabla.
Proof.
  unfold tabla_iteracion, ligar_prog, iterable, retornar, con_estado.
  destruct (generar_conformacion_etkdg_valida ms 2 r (or_intror eq_refl))
    as (m2 & r1 & -> & L2).
  destruct (generar_conformacion_etkdg_valida ms 1 r1 (or_introl eq_refl))
    as (m1 & r2 & -> & L1).
  pose proof (length_generar_conformacion_etdg ms r2) as L3.
  destruct (generar_conformacion_etdg ms r2) as [m3 r3].
  pose proof (length_generar_conformacion_kdg ms r3) as L4.
  destruct (generar_conformacion_kdg ms r3) as [m4 r4].
  pose proof (length_generar_conformacion_uff ms r4) as L5.
  destruct (generar_conformacion_uff ms r4) as [m5 r5].
  pose proof (length_generar_conformacion_mmff ms r5) as L6.
  destruct (generar_conformacion_mmff ms r5) as [m6 r6].
  simpl in L3, L4, L5, L6.
  eexists _, r6. split; [reflexivity|].
  repeat split.
  - unfold columnas_conjunto, sufijos_metodo. simpl.
    rewrite app_nil_r, <- !app_assoc, !map_map. f_equal.
    apply map_ext. intros d. now rewrite append_vacio.
  - rewrite !filas_concat_axis1. unfold add_suffix. simpl.
    rewrite !length_map. lia.
  - repeat apply bien_formado_concat_axis1;
      try apply bien_formado_add_suffix; apply bien_formado_calculador_3d.
Qed.

Lemma bucle_iteraciones_conjunto (its : list nat) (ms : list mol)
  (res : gmap nat DataFrame) (r : rng) :
  exists res' r',
    bucle_iteraciones its ms res r = (Devuelve res', r')
    /\ (forall it, In it its ->
          exists tabla, res' !! it = Some tabla /\ tabla_conjunto ms tabla)
    /\ (forall it, ~ In it its -> res' !! it = res !! it).
Proof.
  revert res r. induction its as [|it its IH]; intros res r; simpl.
  - exists res, r. unfold retornar.
    split; [reflexivity|]. split; [intros it []|reflexivity].
  - unfold ligar_prog.
    destruct (tabla_iteracion_conjunto ms r) as (tabla & r1 & -> & Ht).
    destruct (IH (<[it := tabla]> res) r1) as (res' & r' & Hb & Hin & Hout).
    exists res', r'. split; [exact Hb|]. split.
    + intros it' [<- | Hi].
      * destruct (in_dec Nat.eq_dec it its) as [Hi|Hn]; [now apply Hin|].
        exists tabla. rewrite (Hout it Hn), lookup_insert_eq. now split.
      * now apply Hin.
    + intros it' Hn. rewrite Hout by tauto.
      apply lookup_insert_ne. intros ->. tauto.
Qed.


(** ** Distribution reducer *)

(** The gathering loop appends, for each repetition in turn, the row of the
    molecule in the table of that repetition. *)
Lemma recopilar_filas (res : gmap nat DataFrame) (its : list nat) (i : nat)
  (vm0 vm : DataFrame) :
  recopilar res its i vm0 = Devuelve vm ->
  exists nuevas,
    filas vm = filas vm0 ++ nuevas
    /\ Forall2 (fun it f => exists tabla,
                    res !! it = Some tabla /\ filas tabla !! i = Some f)
               its nuevas.
Proof.
  revert vm0. induction its as [|it its IH]; intros vm0 H; simpl in H.
  - inversion H; subst. exists []. split; [now rewrite app_nil_r | constructor].
  - unfold buscar, iloc in H.
    destruct (res !! it) as [tabla|] eqn:Ht; simpl in H; [|discriminate].
    destruct (filas tabla !! i) as [f|] eqn:Hf; simpl in H; [|discriminate].
    destruct (IH _ H) as (nuevas & Hn & Hall).
    exists (f :: nuevas). split.
    + rewrite Hn. unfold append_serie.
      destruct (filas vm0); simpl; [reflexivity | now rewrite <- app_assoc].
    + constructor; [eauto | exact Hall].
Qed.



Lemma length_columna (j : nat) (df : DataFrame) :
  length (columna j df) = length (filas df).
Proof. unfold columna. apply length_map. Qed.

Lemma describe_desde_3 (vm : DataFrame) :
  columns vm <> [] ->
  (haz resumen <- describe vm; Devuelve (desde 3 resumen)) =
  Devuelve
    {| indice := ["min"; "25%"; "50%"; "75%"; "max"]%string;
       columnas := columns vm;
       valores :=
         map (fun f => map (fun j => f (columna j vm))
                           (seq 0 (length (columns vm))))
             [ s_min; s_cuantil (1 # 4); s_cuantil (1 # 2);
               s_cuantil (3 # 4); s_max ] |}.
Proof.
  intros Hc. unfold describe. destruct (columns vm); [contradiction|].
  reflexivity.
Qed.

Lemma describe_sin_columnas (vm : DataFrame) :
  columns vm = [] -> describe vm = Lanza ValueError.
Proof. intros Hc. unfold describe. now rewrite Hc. Qed.

Lemma estadisticas_molecula_devuelve (resultados : gmap nat DataFrame)
  (lista_iteraciones : list nat) (indice_molecula : nat) (e : Resumen) :
  estadisticas_molecula resultados lista_iteraciones indice_molecula
    = Devuelve e ->
  exists valores_molecula,
    recopilar resultados lista_iteraciones indice_molecula DataFrame_vacio
      = Devuelve valores_molecula
    /\ Forall2 (fun iteracion fila => exists tabla,
                    resultados !! iteracion = Some tabla
                    /\ filas tabla !! indice_molecula = Some fila)
               lista_iteraciones (filas valores_molecula)
    /\ indice e = ["min"; "25%"; "50%"; "75%"; "max"]%string
    /\ columnas e = columns valores_molecula
    /\ valores e =
       map (fun f => map (fun j => f (columna j valores_molecula))
                         (seq 0 (length (columns valores_molecula))))
           [ s_min; s_cuantil (1 # 4); s_cuantil (1 # 2);
             s_cuantil (3 # 4); s_max ].
Proof.
  unfold estadisticas_molecula. intros H.
  destruct (recopilar resultados lista_iteraciones indice_molecula
              DataFrame_vacio) as [vm|err] eqn:Hr; simpl in H; [|discriminate].
  exists vm. split; [reflexivity|].
  destruct (recopilar_filas _ _ _ _ _ Hr) as (nuevas & Hn & Hall).
  simpl in Hn. subst nuevas. split; [exact Hall|].
  destruct (columns vm) as [|c cs] eqn:Hc.
  - rewrite (describe_sin_columnas vm Hc) in H. discriminate.
  - assert (Hne : columns vm <> []) by (rewrite Hc; discriminate).
    pose proof (describe_desde_3 vm Hne) as Hd.
    unfold ligar in Hd, H. destruct (describe vm); [|discriminate].
    rewrite Hd in H. inversion H; subst e. simpl. rewrite Hc. auto.
Qed.






(** ** Loops over the molecules *)

Lemma para_todos_length {A B} (f : A -> resultado B) (l : list A) (l' : list B) :
  para_todos f l = Devuelve l' -> length l' = length l.
Proof.
  revert l'. induction l as [|a l IH]; intros l' H; simpl in H.
  - inversion H. reflexivity.
  - destruct (f a) as [b|]; simpl in H; [|discriminate].
    destruct (para_todos f l) as [bs|]; simpl in H; [|discriminate].
    inversion H. simpl. f_equal. now apply IH.
Qed.

Lemma para_todos_Forall2 {A B} (f : A -> resultado B) (l : list A) (l' : list B) :
  para_todos f l = Devuelve l' -> Forall2 (fun a b => f a = Devuelve b) l l'.
Proof.
  revert l'. induction l as [|a l IH]; intros l' H; simpl in H.
  - inversion H. constructor.
  - destruct (f a) as [b|] eqn:Hb; simpl in H; [|discriminate].
    destruct (para_todos f l) as [bs|]; simpl in H; [|discriminate].
    inversion H. constructor; [exact Hb | now apply IH].
Qed.

Lemma bucle_estadisticas_devuelve (res : gmap nat DataFrame) (its idx : list nat)
  (acc est : gmap nat Resumen) :
  bucle_estadisticas res its idx acc = Devuelve est ->
  (forall i, In i idx ->
     exists e, est !! i = Some e /\ estadisticas_molecula res its i = Devuelve e)
  /\ (forall i, ~ In i idx -> est !! i = acc !! i).
Proof.
  revert acc. induction idx as [|i idx IH]; intros acc H; simpl in H.
  - inversion H. split; [intros i []|reflexivity].
  - destruct (estadisticas_molecula res its i) as [e|] eqn:He; simpl in H;
      [|discriminate].
    destruct (IH _ H) as [Hin Hout]. split.
    + intros i' [<- | Hi'].
      * destruct (in_dec Nat.eq_dec i idx) as [Hi|Hn]; [now apply Hin|].
        exists e. rewrite (Hout i Hn), lookup_insert_eq. auto.
      * now apply Hin.
    + intros i' Hn. rewrite Hout by (simpl in Hn; tauto).
      apply lookup_insert_ne. intros ->. simpl in Hn. tauto.
Qed.

Lemma bucle_estadisticas_ok (res : gmap nat DataFrame) (its idx : list nat)
  (acc : gmap nat Resumen) :
  (forall i, In i idx -> exists e, estadisticas_molecula res its i = Devuelve e) ->
  exists est, bucle_estadisticas res its idx acc = Devuelve est.
Proof.
  revert acc. induction idx as [|i idx IH]; intros acc H; simpl; [eauto|].
  destruct (H i (or_introl eq_refl)) as (e & ->). simpl.
  apply IH. intros i' Hi'. apply H. now right.
Qed.

Lemma bucle_matriz_devuelve (res : gmap nat DataFrame) (its idx : list nat)
  (acc fm : list (list valor)) :
  bucle_matriz res its idx acc = Devuelve fm ->
  exists nuevas,
    fm = acc ++ nuevas
    /\ Forall2 (fun i f => exists e,
                    estadisticas_molecula res its i = Devuelve e
                    /\ f = reshape_F e) idx nuevas.
Proof.
  revert acc. induction idx as [|i idx IH]; intros acc H; simpl in H.
  - inversion H. exists []. split; [now rewrite app_nil_r | constructor].
  - destruct (estadisticas_molecula res its i) as [e|] eqn:He; simpl in H;
      [|discriminate].
    destruct (IH _ H) as (nuevas & -> & Hall).
    exists (reshape_F e :: nuevas). split; [now rewrite <- app_assoc|].
    constructor; eauto.
Qed.

(** Gathering succeeds when every repetition has a table with a row for the
    molecule. *)
Lemma recopilar_ok (res : gmap nat DataFrame) (its : list nat) (i : nat)
  (vm0 : DataFrame) :
  (forall it, In it its ->
     exists tabla, res !! it = Some tabla /\ i < length (filas tabla)) ->
  exists vm, recopilar res its i vm0 = Devuelve vm.
Proof.
  revert vm0. induction its as [|it its IH]; intros vm0 H; simpl; [eauto|].
  destruct (H it (or_introl eq_refl)) as (tabla & Ht & Hi).
  unfold buscar, iloc. rewrite Ht. simpl.
  destruct (lookup_lt_is_Some_2 _ _ Hi) as (f & ->). simpl.
  apply IH. intros it' Hit'. apply H. now right.
Qed.

(** The gathered frame takes the labels of the tables. *)
Lemma recopilar_columns (res : gmap nat DataFrame) (its : list nat) (i : nat)
  (cc : list string) (vm0 vm : DataFrame) :
  recopilar res its i vm0 = Devuelve vm ->
  (forall it tabla, In it its -> res !! it = Some tabla -> columns tabla = cc) ->
  (filas vm0 = [] -> its <> []) ->
  (filas vm0 <> [] -> columns vm0 = cc) ->
  columns vm = cc.
Proof.
  revert vm0. induction its as [|it its IH]; intros vm0 H Hc H0 H1; simpl in H.
  - inversion H; subst. destruct (filas vm) eqn:Hf.
    + exfalso. now apply H0.
    + apply H1. discriminate.
  - unfold buscar, iloc in H.
    destruct (res !! it) as [tabla|] eqn:Ht; simpl in H; [|discriminate].
    destruct (filas tabla !! i) as [f|] eqn:Hf; simpl in H; [|discriminate].
    apply (IH _ H).
    + intros it' t' Hi'. apply Hc. now right.
    + unfold append_serie. destruct (filas vm0); simpl; intros; discriminate.
    + intros _. unfold append_serie. destruct (filas vm0) eqn:Hv; simpl.
      * apply (Hc it tabla); [now left | exact Ht].
      * apply H1. discriminate.
Qed.

(** Shape of the summary of a molecule when every repetition has a table
    with the columns of the ensemble. *)
Lemma estadisticas_molecula_forma (res : gmap nat DataFrame) (its : list nat)
  (i : nat) (ms : list mol) (e : Resumen) :
  its <> [] ->
  (forall it, In it its ->
     exists tabla, res !! it = Some tabla /\ tabla_conjunto ms tabla) ->
  estadisticas_molecula res its i = Devuelve e ->
  indice e = etiquetas_estadisticas
  /\ columnas e = columnas_conjunto
  /\ length (valores e) = 5
  /\ Forall (fun f => length f = length columnas_conjunto) (valores e).
Proof.
  intros Hne Ht He.
  destruct (estadisticas_molecula_devuelve _ _ _ _ He) as (vm & Hr & _ & Hi & Hc & Hv).
  assert (Hcc : columns vm = columnas_conjunto).
  { apply (recopilar_columns _ _ _ _ _ _ Hr).
    - intros it tabla Hit Hl. destruct (Ht it Hit) as (t' & Hl' & Hc' & _).
      congruence.
    - intros _. exact Hne.
    - intros Hf. now elim Hf. }
  rewrite Hi, Hc, Hv, Hcc. repeat split.
  repeat constructor; now rewrite length_map, length_seq.
Qed.

Lemma estadisticas_molecula_ok (res : gmap nat DataFrame) (its : list nat)
  (i : nat) (ms : list mol) :
  its <> [] ->
  columnas_conjunto <> [] ->
  (forall it, In it its ->
     exists tabla, res !! it = Some tabla /\ tabla_conjunto ms tabla) ->
  i < length ms ->
  exists e, estadisticas_molecula res its i = Devuelve e.
Proof.
  intros Hne Hcc Ht Hi.
  destruct (recopilar_ok res its i DataFrame_vacio) as (vm & Hr).
  { intros it Hit. destruct (Ht it Hit) as (t & Hl & _ & Hn & _).
    exists t. split; [exact Hl | now rewrite Hn]. }
  assert (Hc : columns vm = columnas_conjunto).
  { apply (recopilar_columns _ _ _ _ _ _ Hr).
    - intros it tabla Hit Hl. destruct (Ht it Hit) as (t' & Hl' & Hc' & _).
      congruence.
    - intros _. exact Hne.
    - intros Hf. now elim Hf. }
  unfold estadisticas_molecula. rewrite Hr.
  change (ligar (Devuelve vm) ?f) with (f vm). cbv beta.
  rewrite describe_desde_3 by (now rewrite Hc). eauto.
Qed.


(** ** Flattening and naming *)



Lemma map_nth_seq {A B} (f : A -> B) (l : list A) (d : A) :
  map (fun j => f (nth j l d)) (seq 0 (length l)) = map f l.
Proof.
  induction l as [|a l IH]; simpl; [reflexivity|].
  f_equal. rewrite <- seq_shift, map_map. exact IH.
Qed.

Lemma flat_map_nth_seq {A B} (g : A -> list B) (l : list A) (d : A) :
  flat_map (fun j => g (nth j l d)) (seq 0 (length l)) = flat_map g l.
Proof.
  induction l as [|a l IH]; simpl; [reflexivity|].
  f_equal. rewrite <- seq_shift, flat_map_concat_map, map_map.
  rewrite <- flat_map_concat_map. exact IH.
Qed.

(** The names are generated descriptor by descriptor and, for each, statistic
    by statistic. *)
Lemma nombres_columnas_finales_orden (muestra : Resumen) :
  nombres_columnas_finales muestra =
  flat_map (fun col => map (fun est => String.append est col) (indice muestra))
           (columnas muestra).
Proof.
  unfold nombres_columnas_finales.
  rewrite (flat_map_nth_seq
             (fun col => map (fun s => String.append
                                         (nth s (indice muestra) ""%string) col)
                             (seq 0 (length (indice muestra))))).
  apply flat_map_ext. intros col.
  apply (map_nth_seq (fun est => String.append est col)).
Qed.



(** ** The run as a whole *)

Lemma ligar_prog_devuelve {A B} (x : prog A) (f : A -> prog B) (r r' : rng) (b : B) :
  ligar_prog x f r = (Devuelve b, r') ->
  exists a r1, x r = (Devuelve a, r1) /\ f a r1 = (Devuelve b, r').
Proof.
  unfold ligar_prog. intros H. destruct (x r) as [[a|e] r1]; [eauto|].
  discriminate H.
Qed.

Lemma puro_devuelve {A} (x : resultado A) (r r' : rng) (a : A) :
  puro x r = (Devuelve a, r') -> x = Devuelve a /\ r' = r.
Proof. unfold puro. intros H. inversion H. auto. Qed.

Lemma con_estado_devuelve {A} (f : rng -> A * rng) (r r' : rng) (a : A) :
  con_estado f r = (Devuelve a, r') -> f r = (a, r').
Proof.
  unfold con_estado. intros H. destruct (f r) as [a0 r0]. inversion H.
  reflexivity.
Qed.

Ltac paso H a r1 Ha :=
  apply ligar_prog_devuelve in H; destruct H as (a & r1 & Ha & H).

(** What a run that returns went through. *)
Lemma analisis_devuelve (df_original : DataFrame) (r r' : rng) (out : salida) :
  analisis df_original r = (Devuelve out, r') ->
  exists moleculas_base r1 r4 muestra fm ej1 ej2,
    cargar_moleculas df_original = Devuelve moleculas_base
    /\ moleculas_validas moleculas_base
       = Devuelve (moleculas_para_conformaciones out)
    /\ generar_conformacion_uff (moleculas_para_conformaciones out) r
       = (conformaciones_uff out, r1)
    /\ indices_moleculas out = seq 0 (length (conformaciones_uff out))
    /\ bucle_iteraciones (seq 0 numero_iteraciones)
         (moleculas_para_conformaciones out) ∅ r4
       = (Devuelve (resultados_descriptores out), r')
    /\ buscar (resultados_descriptores out) 1 = Devuelve ej1
    /\ bucle_estadisticas (resultados_descriptores out)
         (seq 0 numero_iteraciones) (indices_moleculas out) ∅
       = Devuelve (estadisticas_distribucion out)
    /\ buscar (estadisticas_distribucion out) 2 = Devuelve ej2
    /\ buscar (estadisticas_distribucion out) 1 = Devuelve muestra
    /\ columnas_finales out = nombres_columnas_finales muestra
    /\ bucle_matriz (resultados_descriptores out) (seq 0 numero_iteraciones)
         (indices_moleculas out) [] = Devuelve fm
    /\ asignar_columnas fm (columnas_finales out)
       = Devuelve (matriz_descriptores_estadisticos out)
    /\ matriz_descriptores_2d out
       = calculador_2d (moleculas_para_conformaciones out)
    /\ limpiar (concat_axis1 (matriz_descriptores_2d out)
                  (matriz_descriptores_estadisticos out))
       = Devuelve (matriz_numerica out)
    /\ dataset_final out = concat_axis1 df_original (matriz_numerica out).
Proof.
  unfold analisis. intros H.
  paso H mb s1 H1. apply puro_devuelve in H1 as [H1 ->].
  paso H ms s2 H2. apply puro_devuelve in H2 as [H2 ->].
  paso H cu r1 H3. apply con_estado_devuelve in H3.
  paso H ce r2 H4. paso H c1 r3 H5. paso H c2 r4 H6.
  cbv zeta in H.
  paso H res r5 H7.
  paso H ej1 s8 H8. apply puro_devuelve in H8 as [H8 ->].
  paso H est s9 H9. apply puro_devuelve in H9 as [H9 ->].
  paso H ej2 s10 H10. apply puro_devuelve in H10 as [H10 ->].
  paso H mu s11 H11. apply puro_devuelve in H11 as [H11 ->].
  paso H fm s12 H12. apply puro_devuelve in H12 as [H12 ->].
  paso H me s13 H13. apply puro_devuelve in H13 as [H13 ->].
  paso H nu s14 H14. apply puro_devuelve in H14 as [H14 ->].
  unfold retornar in H. injection H as Ho Hr. subst out r'.
  cbn [moleculas_para_conformaciones conformaciones_uff indices_moleculas
       resultados_descriptores estadisticas_distribucion columnas_finales
       matriz_descriptores_estadisticos matriz_descriptores_2d
       matriz_numerica dataset_final].
  exists mb, r1, r4, mu, fm, ej1, ej2.
  repeat (split; [first [assumption | reflexivity]|]). reflexivity.
Qed.

Lemma asignar_columnas_devuelve (fm : list (list valor)) (nombres : list string)
  (df : DataFrame) :
  asignar_columnas fm nombres = Devuelve df ->
  length nombres = ancho fm
  /\ df = {| columns := nombres; filas := map (completar (ancho fm)) fm |}.
Proof.
  unfold asignar_columnas. intros H.
  destruct (Nat.eqb_spec (length nombres) (ancho fm)) as [He|]; [|discriminate].
  inversion H. auto.
Qed.


Lemma numero_iteraciones_no_vacio : seq 0 numero_iteraciones <> [].
Proof. discriminate. Qed.

(** The repetition tables of a run. *)
Lemma analisis_tablas (df_original : DataFrame) (r r' : rng) (out : salida) :
  analisis df_original r = (Devuelve out, r') ->
  forall it, In it (seq 0 numero_iteraciones) ->
    exists tabla,
      resultados_descriptores out !! it = Some tabla
      /\ tabla_conjunto (moleculas_para_conformaciones out) tabla.
Proof.
  intros H. destruct (analisis_devuelve _ _ _ _ H)
    as (mb & r1 & r4 & mu & fm & ej1 & ej2 & _ & _ & _ & _ & Hb & _).
  destruct (bucle_iteraciones_conjunto (seq 0 numero_iteraciones)
              (moleculas_para_conformaciones out) ∅ r4)
    as (res & r5 & Hb' & Hin & _).
  rewrite Hb in Hb'. injection Hb' as -> _. exact Hin.
Qed.

(** In a run that returns, every molecule index has its summary, of the
    common shape. *)
Lemma analisis_estadisticas (df_original : DataFrame) (r r' : rng) (out : salida) :
  analisis df_original r = (Devuelve out, r') ->
  forall i, In i (indices_moleculas out) ->
    exists e,
      estadisticas_distribucion out !! i = Some e
      /\ estadisticas_molecula (resultados_descriptores out)
           (seq 0 numero_iteraciones) i = Devuelve e
      /\ indice e = etiquetas_estadisticas
      /\ columnas e = columnas_conjunto
      /\ length (valores e) = 5
      /\ Forall (fun f => length f = length columnas_conjunto) (valores e).
Proof.
  intros H i Hi. pose proof (analisis_tablas _ _ _ _ H) as Ht.
  destruct (analisis_devuelve _ _ _ _ H)
    as (mb & r1 & r4 & mu & fm & ej1 & ej2 & _ & _ & _ & _ & _ & _ & He & _).
  destruct (bucle_estadisticas_devuelve _ _ _ _ _ He) as [Hin _].
  destruct (Hin i Hi) as (e & Hl & Hm).
  exists e. split; [exact Hl|]. split; [exact Hm|].
  eapply estadisticas_molecula_forma; eauto using numero_iteraciones_no_vacio.
Qed.


Lemma ligar_prog_paso {A B} (x : prog A) (f : A -> prog B) (r r1 : rng) (a : A) :
  x r = (Devuelve a, r1) -> ligar_prog x f r = f a r1.
Proof. unfold ligar_prog. now intros ->. Qed.

Lemma ligar_prog_lanza {A B} (x : prog A) (f : A -> prog B) (r r1 : rng)
  (e : excepcion) :
  x r = (Lanza e, r1) -> ligar_prog x f r = (Lanza e, r1).
Proof. unfold ligar_prog. now intros ->. Qed.

Lemma con_estado_paso {A} (f : rng -> A * rng) (r : rng) :
  con_estado f r = (Devuelve (f r).1, (f r).2).
Proof. unfold con_estado. now destruct (f r). Qed.

Lemma columnas_conjunto_no_vacio :
  descriptores_filtrados <> [] -> columnas_conjunto <> [].
Proof.
  unfold columnas_conjunto, sufijos_metodo. cbn [flat_map].
  destruct descriptores_filtrados; [congruence|]. discriminate.
Qed.

Lemma analisis_total (df_original : DataFrame) (r : rng) :
  (exists out r', analisis df_original r = (Devuelve out, r'))
  \/ (exists e r', analisis df_original r = (Lanza e, r')).
Proof. destruct (analisis df_original r) as [[out|e] r']; eauto. Qed.

(** C10. A run returns only if at least three molecules passed the UFF check
    of the initial generation stage.  With fewer than three the run raises:
    the statistics of the molecules that did pass are computed, and the
    look-up of molecule index 2 in the accumulated statistics is a
    [KeyError] (whenever the engine offers at least one of the listed
    descriptors, so that the statistics stage is reached with columns). *)
Theorem C10_tres_moleculas_o_KeyError (df_original : DataFrame) (r : rng)
  (moleculas_base : list (option mol)) (moleculas : list mol) :
  cargar_moleculas df_original = Devuelve moleculas_base ->
  moleculas_validas moleculas_base = Devuelve moleculas ->
  let supervivientes := (generar_conformacion_uff moleculas r).1 in
  (forall out r', analisis df_original r = (Devuelve out, r') ->
     conformaciones_uff out = supervivientes /\ 3 <= length supervivientes)
  /\ (length supervivientes < 3 ->
      exists e r', analisis df_original r = (Lanza e, r'))
  /\ (descriptores_filtrados <> [] -> length supervivientes < 3 ->
      exists r', analisis df_original r = (Lanza (KeyError 2), r')).
Proof.
  intros Hc Hv. cbv zeta.
  assert (Ha : forall out r', analisis df_original r = (Devuelve out, r') ->
     conformaciones_uff out = (generar_conformacion_uff moleculas r).1
     /\ 3 <= length (generar_conformacion_uff moleculas r).1).
  { intros out r' H.
    destruct (analisis_devuelve _ _ _ _ H)
      as (mb & r1 & r4 & mu & fm & ej1 & ej2 & Hc' & Hv' & Hu & Hidx & _ & _
          & Hbe & Hej2 & _).
    rewrite Hc in Hc'. injection Hc' as <-.
    rewrite Hv in Hv'. injection Hv' as Hms. rewrite <- Hms in Hu.
    rewrite Hu. split; [reflexivity|]. cbn [fst].
    destruct (bucle_estadisticas_devuelve _ _ _ _ _ Hbe) as [_ Hout].
    destruct (in_dec Nat.eq_dec 2 (indices_moleculas out)) as [Hi|Hn].
    - rewrite Hidx in Hi. apply in_seq in Hi. lia.
    - unfold buscar in Hej2. rewrite (Hout 2 Hn), lookup_empty in Hej2.
      discriminate. }
  split; [exact Ha|]. split.
  { intros Hk. destruct (analisis_total df_original r)
      as [(out & r' & H)|H]; [|exact H].
    destruct (Ha _ _ H) as [_ H3]. lia. }
  intros Hcat Hk. unfold analisis.
  erewrite ligar_prog_paso by (unfold puro; rewrite Hc; reflexivity).
  erewrite ligar_prog_paso by (unfold puro; rewrite Hv; reflexivity).
  erewrite ligar_prog_paso by apply con_estado_paso.
  erewrite ligar_prog_paso by apply con_estado_paso.
  set (confs := (generar_conformacion_uff moleculas r).1) in *.
  set (ra := (generar_conformacion_uff moleculas r).2).
  set (rb := (generar_conformacion_etdg moleculas ra).2).
  destruct (generar_conformacion_etkdg_valida moleculas 1 rb (or_introl eq_refl))
    as (c1 & rc & Hc1 & _).
  erewrite ligar_prog_paso by exact Hc1.
  destruct (generar_conformacion_etkdg_valida moleculas 2 rc (or_intror eq_refl))
    as (c2 & rd & Hc2 & _).
  erewrite ligar_prog_paso by exact Hc2.
  cbv zeta.
  destruct (bucle_iteraciones_conjunto (seq 0 numero_iteraciones) moleculas ∅ rd)
    as (res & re & Hb & Hin & _).
  erewrite ligar_prog_paso by exact Hb.
  destruct (Hin 1) as (t1 & Ht1 & _).
  { apply in_seq. unfold numero_iteraciones. lia. }
  erewrite ligar_prog_paso by (unfold puro, buscar; rewrite Ht1; reflexivity).
  destruct (bucle_estadisticas_ok res (seq 0 numero_iteraciones)
              (seq 0 (length confs)) ∅) as (est & Hest).
  { intros i Hi. apply in_seq in Hi.
    apply (estadisticas_molecula_ok res _ i moleculas);
      auto using numero_iteraciones_no_vacio, columnas_conjunto_no_vacio.
    pose proof (length_generar_conformacion_uff moleculas r). fold confs in H.
    lia. }
  erewrite ligar_prog_paso by (unfold puro; rewrite Hest; reflexivity).
  destruct (bucle_estadisticas_devuelve _ _ _ _ _ Hest) as [_ Hout].
  exists re. apply ligar_prog_lanza. unfold puro, buscar.
  rewrite Hout, lookup_empty; [reflexivity|].
  intros Hi. apply in_seq in Hi. lia.
Qed.

(** ** Cleaning *)

Lemma limpiar_devuelve (mc mn : DataFrame) :
  limpiar mc = Devuelve mn ->
  columns mn = columns mc
  /\ Forall2 (Forall2 limpia) (filas mc) (filas mn).
Proof.
  unfold limpiar. intros H.
  destruct (para_todos (para_todos astype_float)
              (map (map enmascarar) (filas mc))) as [fl|] eqn:Hp;
    simpl in H; [|discriminate].
  inversion H; subst mn; clear H. cbn [columns filas]. split; [reflexivity|].
  apply para_todos_Forall2 in Hp.
  apply Forall2_fmap_l in Hp. apply Forall2_fmap_r.
  eapply Forall2_impl; [exact Hp|]. intros f g Hfg.
  apply para_todos_Forall2 in Hfg.
  apply Forall2_fmap_l in Hfg. apply Forall2_fmap_r.
  eapply Forall2_impl; [exact Hfg|]. intros v x Hx.
  exists x. auto.
Qed.

Lemma limpia_marca (v w : valor) :
  limpia v w ->
  (w = Obj "NA" \/ exists q, w = Num q)
  /\ (v = NaN -> w = Obj "NA")
  /\ (contiene_letra (astype_str v) = true -> w = Obj "NA").
Proof.
  intros (x & Hx & ->). unfold enmascarar in Hx.
  destruct (contiene_letra (astype_str v)) eqn:Hl.
  - simpl in Hx. inversion Hx; subst x. simpl. auto.
  - simpl in Hx. destruct (float_de (astype_str v)) as [q|]; [|discriminate].
    inversion Hx; subst x. simpl. split; [eauto|]. split; [|discriminate].
    intros ->. simpl in Hl. discriminate.
Qed.

Lemma limpiar_filas (mc mn : DataFrame) :
  limpiar mc = Devuelve mn -> length (filas mn) = length (filas mc).
Proof.
  intros H. destruct (limpiar_devuelve _ _ H) as [_ Hf].
  symmetry. eapply Forall2_length; eauto.
Qed.

(** ** Rows of the final table *)

Lemma length_columna_por_nombre (df : DataFrame) (c : string) (l : list valor) :
  columna_por_nombre df c = Devuelve l -> length l = length (filas df).
Proof.
  unfold columna_por_nombre. destruct (posicion c (columns df)); [|discriminate].
  intros H. inversion H. apply length_columna.
Qed.

Lemma length_cargar_moleculas (df : DataFrame) (mb : list (option mol)) :
  cargar_moleculas df = Devuelve mb -> length mb = length (filas df).
Proof.
  unfold cargar_moleculas. intros H.
  destruct (columna_por_nombre df "SMILES") as [l|] eqn:Hl; simpl in H;
    [|discriminate].
  apply para_todos_length in H. rewrite H.
  eapply length_columna_por_nombre; eauto.
Qed.

Lemma filas_calculador_2d (ms : list mol) :
  length (filas (calculador_2d ms)) = length ms.
Proof. unfold calculador_2d. cbn [filas]. apply length_map. Qed.


(** Sizes of the tables of a run that returns. *)
Lemma analisis_filas (df_original : DataFrame) (r r' : rng) (out : salida) :
  analisis df_original r = (Devuelve out, r') ->
  length (moleculas_para_conformaciones out) = length (filas df_original)
  /\ conformaciones_uff out
     = (generar_conformacion_uff (moleculas_para_conformaciones out) r).1
  /\ length (conformaciones_uff out) <= length (filas df_original)
  /\ length (filas (matriz_descriptores_estadisticos out))
     = length (conformaciones_uff out)
  /\ length (filas (matriz_descriptores_2d out)) = length (filas df_original)
  /\ length (filas (matriz_numerica out)) = length (filas df_original)
  /\ length (filas (dataset_final out)) = length (filas df_original).
Proof.
  intros H.
  destruct (analisis_devuelve _ _ _ _ H)
    as (mb & r1 & r4 & mu & fm & ej1 & ej2 & Hc & Hv & Hu & Hidx & _ & _ & _
        & _ & _ & _ & Hbm & Hasig & H2d & Hlim & Hfin).
  assert (Hn : length (moleculas_para_conformaciones out)
               = length (filas df_original)).
  { apply para_todos_length in Hv. rewrite Hv.
    now apply length_cargar_moleculas. }
  assert (Hk : length (conformaciones_uff out) <= length (filas df_original)).
  { rewrite <- Hn.
    pose proof (length_generar_conformacion_uff
                  (moleculas_para_conformaciones out) r) as Hle.
    now rewrite Hu in Hle. }
  assert (Hm : length (filas (matriz_descriptores_estadisticos out))
               = length (conformaciones_uff out)).
  { destruct (asignar_columnas_devuelve _ _ _ Hasig) as [_ ->].
    cbn [filas]. rewrite length_map.
    destruct (bucle_matriz_devuelve _ _ _ _ _ Hbm) as (nuevas & -> & Hall).
    apply Forall2_length in Hall. simpl. rewrite <- Hall, Hidx.
    apply length_seq. }
  assert (H2 : length (filas (matriz_descriptores_2d out))
               = length (filas df_original)).
  { rewrite H2d, filas_calculador_2d. exact Hn. }
  assert (Hnum : length (filas (matriz_numerica out))
                 = length (filas df_original)).
  { rewrite (limpiar_filas _ _ Hlim), filas_concat_axis1. lia. }
  repeat split; auto.
  - now rewrite Hu.
  - rewrite Hfin, filas_concat_axis1. lia.
Qed.

Lemma lookup_concat_axis1 (a b : DataFrame) (i : nat) :
  i < Nat.max (length (filas a)) (length (filas b)) ->
  filas (concat_axis1 a b) !! i
  = Some (fila_o_faltante a i ++ fila_o_faltante b i).
Proof.
  intros Hi. unfold concat_axis1. cbn [filas].
  rewrite list_lookup_fmap, lookup_seq_lt by exact Hi. reflexivity.
Qed.

Lemma concat_axis1_mismas_filas (a b : DataFrame) :
  length (filas a) = length (filas b) ->
  filas (concat_axis1 a b) = zip_with app (filas a) (filas b).
Proof.
  intros Hl. apply list_eq. intros i. rewrite lookup_zip_with.
  destruct (le_lt_dec (length (filas a)) i) as [Hge|Hlt].
  - rewrite (lookup_ge_None_2 (filas a)) by exact Hge.
    rewrite (lookup_ge_None_2 (filas (concat_axis1 a b)))
      by (rewrite filas_concat_axis1; lia).
    reflexivity.
  - rewrite lookup_concat_axis1 by lia. unfold fila_o_faltante.
    destruct (lookup_lt_is_Some_2 (filas a) i Hlt) as (fa & ->).
    destruct (lookup_lt_is_Some_2 (filas b) i) as (fb & ->); [lia|].
    reflexivity.
Qed.



(** C5 (as amended). In a run that returns, every cell of the cleaned
    descriptor matrix is a float or the marker ["NA"], which is not the
    float 0; every cell that was missing in the combined descriptor matrix,
    the statistics left missing by conformer drops among them, is ["NA"];
    and each row of the exported table is the row of the input table,
    copied as it is, followed by the row of the cleaned matrix. *)
Theorem C5_faltantes_como_NA (df_original : DataFrame) (r r' : rng)
  (out : salida) :
  analisis df_original r = (Devuelve out, r') ->
  Forall (Forall (fun w => w = Obj "NA" \/ exists q, w = Num q))
         (filas (matriz_numerica out))
  /\ Forall2 (Forall2 (fun v w => v = NaN -> w = Obj "NA"))
       (filas (concat_axis1 (matriz_descriptores_2d out)
                 (matriz_descriptores_estadisticos out)))
       (filas (matriz_numerica out))
  /\ columns (dataset_final out)
     = columns df_original ++ columns (matriz_numerica out)
  /\ filas (dataset_final out)
     = zip_with app (filas df_original) (filas (matriz_numerica out))
  /\ Obj "NA" <> Num 0.
Proof.
  intros H.
  destruct (analisis_filas _ _ _ _ H) as (_ & _ & _ & _ & _ & Hnum & _).
  destruct (analisis_devuelve _ _ _ _ H)
    as (mb & r1 & r4 & mu & fm & ej1 & ej2 & _ & _ & _ & _ & _ & _ & _
        & _ & _ & _ & _ & _ & _ & Hlim & Hfin).
  destruct (limpiar_devuelve _ _ Hlim) as [_ Hall].
  split; [|split; [|split; [|split]]].
  - apply Forall_forall. intros f Hf.
    apply list_elem_of_lookup in Hf as (i & Hf).
    destruct (Forall2_lookup_r _ _ _ _ _ Hall Hf) as (g & _ & Hgf).
    apply Forall_forall. intros w Hw.
    apply list_elem_of_lookup in Hw as (j & Hw).
    destruct (Forall2_lookup_r _ _ _ _ _ Hgf Hw) as (v & _ & Hvw).
    apply (limpia_marca _ _ Hvw).
  - eapply Forall2_impl; [exact Hall|]. intros f g Hfg.
    eapply Forall2_impl; [exact Hfg|]. intros v w Hvw.
    apply (limpia_marca _ _ Hvw).
  - rewrite Hfin. reflexivity.
  - rewrite Hfin. apply concat_axis1_mismas_filas. now rewrite Hnum.
  - discriminate.
Qed.

(** * Further properties *)

(** ** Generators that never drop a molecule *)

Lemma generar_conformacion_etdg_embebe (ms : list mol) (r : rng) :
  generar_conformacion_etdg ms r = embeber_todas ETDG ms r.
Proof.
  revert r. induction ms as [|m ms IH]; intros r; simpl; [reflexivity|].
  destruct (EmbedMolecule ETDG (AddHs m) r) as [e r1]. now rewrite IH.
Qed.

Lemma generar_conformacion_kdg_embebe (ms : list mol) (r : rng) :
  generar_conformacion_kdg ms r = embeber_todas KDG ms r.
Proof.
  revert r. induction ms as [|m ms IH]; intros r; simpl; [reflexivity|].
  destruct (EmbedMolecule KDG (AddHs m) r) as [e r1]. now rewrite IH.
Qed.

Lemma bucle_etkdg_1 (ms acc : list mol) (r : rng) :
  bucle_etkdg ms 1 acc r =
  (Devuelve (Some (acc ++ (embeber_todas ETKDG ms r).1)),
   (embeber_todas ETKDG ms r).2).
Proof.
  revert acc r. induction ms as [|m ms IH]; intros acc r; simpl.
  - now rewrite app_nil_r.
  - destruct (EmbedMolecule ETKDG (AddHs m) r) as [e r1]. rewrite IH.
    destruct (embeber_todas ETKDG ms r1) as [otras r2]. simpl.
    now rewrite <- app_assoc.
Qed.

Lemma bucle_etkdg_2 (ms acc : list mol) (r : rng) :
  bucle_etkdg ms 2 acc r =
  (Devuelve (Some (acc ++ (embeber_todas ETKDGv2 ms r).1)),
   (embeber_todas ETKDGv2 ms r).2).
Proof.
  revert acc r. induction ms as [|m ms IH]; intros acc r; simpl.
  - now rewrite app_nil_r.
  - destruct (EmbedMolecule ETKDGv2 (AddHs m) r) as [e r1]. rewrite IH.
    destruct (embeber_todas ETKDGv2 ms r1) as [otras r2]. simpl.
    now rewrite <- app_assoc.
Qed.

(** X1. The four distance-geometry generators (ETDG, KDG, ETKDG with version
    1 or 2) never leave a molecule out: each returns, in input order, the
    embedding of every molecule of the list with hydrogens added, so the
    result is as long as the input. *)
Theorem X1_generadores_sin_bajas (lista_moleculas : list mol) (r : rng) :
  generar_conformacion_etdg lista_moleculas r
    = embeber_todas ETDG lista_moleculas r
  /\ generar_conformacion_kdg lista_moleculas r
     = embeber_todas KDG lista_moleculas r
  /\ generar_conformacion_etkdg lista_moleculas 1 r
     = (Devuelve (Some (embeber_todas ETKDG lista_moleculas r).1),
        (embeber_todas ETKDG lista_moleculas r).2)
  /\ generar_conformacion_etkdg lista_moleculas 2 r
     = (Devuelve (Some (embeber_todas ETKDGv2 lista_moleculas r).1),
        (embeber_todas ETKDGv2 lista_moleculas r).2)
  /\ forall p, length (embeber_todas p lista_moleculas r).1
               = length lista_moleculas.
Proof.
  split; [apply generar_conformacion_etdg_embebe|].
  split; [apply generar_conformacion_kdg_embebe|].
  unfold generar_conformacion_etkdg.
  split; [apply bucle_etkdg_1|]. split; [apply bucle_etkdg_2|].
  intros p. apply length_embeber_todas.
Qed.

(** ** Shape of the repetition tables *)

Lemma length_columnas_conjunto :
  length columnas_conjunto = 6 * length descriptores_filtrados.
Proof.
  unfold columnas_conjunto, sufijos_metodo. cbn [flat_map].
  rewrite !length_app, !length_map. simpl. lia.
Qed.


Lemma fila_o_faltante_calculador_3d (ms : list mol) (i : nat) :
  fila_o_faltante (calculador_3d ms) i = bloque ms i.
Proof.
  unfold fila_o_faltante, bloque, calculador_3d. cbn [filas columns].
  rewrite list_lookup_fmap. destruct (ms !! i); simpl; [reflexivity|].
  now rewrite length_map.
Qed.

Lemma fila_o_faltante_add_suffix (suf : string) (df : DataFrame) (i : nat) :
  fila_o_faltante (add_suffix suf df) i = fila_o_faltante df i.
Proof.
  unfold fila_o_faltante, add_suffix. cbn [filas columns].
  now rewrite length_map.
Qed.

Lemma fila_o_faltante_concat_axis1 (a b : DataFrame) (i : nat) :
  i < Nat.max (length (filas a)) (length (filas b)) ->
  fila_o_faltante (concat_axis1 a b) i
  = fila_o_faltante a i ++ fila_o_faltante b i.
Proof.
  intros Hi. unfold fila_o_faltante at 1.
  now rewrite lookup_concat_axis1.
Qed.

(** X3. The table of a repetition, row by row: row [i] is made of the
    descriptors of the [i]-th conformer of each method's result list, in the
    order ETKDGv2, ETKDG, ETDG, KDG, UFF, MMFF.  The UFF and MMFF groups are
    filled by position in the list of survivors, not by molecule: after a
    drop, row [i] holds the values of a later molecule, and the last rows of
    the group are missing. *)
Theorem X3_filas_por_posicion (moleculas : list mol) (r : rng) :
  let e2 := embeber_todas ETKDGv2 moleculas r in
  let e1 := embeber_todas ETKDG moleculas e2.2 in
  let e3 := embeber_todas ETDG moleculas e1.2 in
  let e4 := embeber_todas KDG moleculas e3.2 in
  let uff := generar_conformacion_uff moleculas e4.2 in
  let mmff := generar_conformacion_mmff moleculas uff.2 in
  exists tabla,
    tabla_iteracion moleculas r = (Devuelve tabla, mmff.2)
    /\ filas tabla =
       map (fun i => bloque e2.1 i ++ bloque e1.1 i ++ bloque e3.1 i
                     ++ bloque e4.1 i ++ bloque uff.1 i ++ bloque mmff.1 i)
           (seq 0 (length moleculas))
    /\ (forall i, length uff.1 <= i ->
          bloque uff.1 i = replicate (length descriptores_filtrados) NaN)
    /\ (forall i, length mmff.1 <= i ->
          bloque mmff.1 i = replicate (length descriptores_filtrados) NaN).
Proof.
  cbv zeta. unfold tabla_iteracion, generar_conformacion_etkdg.
  erewrite ligar_prog_paso by apply bucle_etkdg_2.
  unfold iterable at 1. erewrite ligar_prog_paso by reflexivity.
  erewrite ligar_prog_paso by apply bucle_etkdg_1.
  unfold iterable. erewrite ligar_prog_paso by reflexivity.
  erewrite ligar_prog_paso by apply con_estado_paso.
  erewrite ligar_prog_paso by apply con_estado_paso.
  erewrite ligar_prog_paso by apply con_estado_paso.
  erewrite ligar_prog_paso by apply con_estado_paso.
  rewrite !generar_conformacion_etdg_embebe, !generar_conformacion_kdg_embebe.
  cbn [app].
  set (e2 := embeber_todas ETKDGv2 moleculas r).
  set (e1 := embeber_todas ETKDG moleculas e2.2).
  set (e3 := embeber_todas ETDG moleculas e1.2).
  set (e4 := embeber_todas KDG moleculas e3.2).
  set (uff := generar_conformacion_uff moleculas e4.2).
  set (mmff := generar_conformacion_mmff moleculas uff.2).
  eexists. split; [reflexivity|].
  pose proof (length_embeber_todas ETKDGv2 moleculas r) as L2.
  pose proof (length_embeber_todas ETKDG moleculas e2.2) as L1.
  pose proof (length_embeber_todas ETDG moleculas e1.2) as L3.
  pose proof (length_embeber_todas KDG moleculas e3.2) as L4.
  pose proof (length_generar_conformacion_uff moleculas e4.2) as L5.
  pose proof (length_generar_conformacion_mmff moleculas uff.2) as L6.
  fold e2 in L2. fold e1 in L1. fold e3 in L3. fold e4 in L4.
  fold uff in L5. fold mmff in L6.
  split; [|split].
  - assert (Hrows : forall suf df, filas (add_suffix suf df) = filas df)
      by reflexivity.
    unfold concat_axis1 at 1. cbn [filas].
    rewrite !filas_concat_axis1, !Hrows, !filas_calculador_3d.
    replace (Nat.max _ (length mmff.1)) with (length moleculas) by lia.
    apply map_ext_in. intros i Hi. apply in_seq in Hi.
    rewrite !fila_o_faltante_concat_axis1
      by (rewrite ?filas_concat_axis1, ?Hrows, ?filas_calculador_3d; lia).
    rewrite !fila_o_faltante_add_suffix, !fila_o_faltante_calculador_3d.
    now rewrite <- !app_assoc.
  - intros i Hi. unfold bloque. now rewrite lookup_ge_None_2.
  - intros i Hi. unfold bloque. now rewrite lookup_ge_None_2.
Qed.

(** ** Column names do not collide *)

Lemma nombres_descriptores_3d_sin_guion_bajo :
  forallb (fun n => negb (tiene_guion_bajo n)) nombres_descriptores_3d = true.
Proof. vm_compute. reflexivity. Qed.

Lemma nombre_filtrado_sin_guion_bajo (d : descriptor) :
  In d descriptores_filtrados -> tiene_guion_bajo (nombre d) = false.
Proof.
  unfold descriptores_filtrados. intros Hd.
  apply List.filter_In in Hd as [_ Hd].
  apply existsb_exists in Hd as (n & Hn & He).
  apply String.eqb_eq in He. subst n.
  pose proof nombres_descriptores_3d_sin_guion_bajo as Hall.
  rewrite forallb_forall in Hall. specialize (Hall _ Hn).
  now apply negb_true_iff in Hall.
Qed.

Lemma hasta_guion_bajo_append (a suf : string) :
  tiene_guion_bajo a = false ->
  suf = EmptyString \/ (exists t, suf = String "_" t) ->
  hasta_guion_bajo (String.append a suf) = a.
Proof.
  intros Ha Hs. induction a as [|c a IH].
  - destruct Hs as [-> | (t & ->)]; reflexivity.
  - change (tiene_guion_bajo (String c a))
      with (Ascii.eqb c "_" || tiene_guion_bajo a) in Ha.
    apply orb_false_iff in Ha as [Hc Ha].
    change (hasta_guion_bajo (String.append (String c a) suf))
      with (if Ascii.eqb c "_" then EmptyString
            else String c (hasta_guion_bajo (String.append a suf))).
    rewrite Hc, (IH Ha). reflexivity.
Qed.

Lemma append_cancela (a s1 s2 : string) :
  String.append a s1 = String.append a s2 -> s1 = s2.
Proof.
  induction a as [|c a IH]; intros H; [exact H|].
  change (String c (String.append a s1) = String c (String.append a s2)) in H.
  injection H as H. now apply IH.
Qed.

Lemma sufijo_metodo_forma (suf : string) :
  In suf sufijos_metodo ->
  suf = EmptyString \/ (exists t, suf = String "_" t).
Proof.
  unfold sufijos_metodo. simpl.
  intros [<-|[<-|[<-|[<-|[<-|[<-|[]]]]]]]; eauto.
Qed.

Lemma nombre_con_sufijo_inyectivo (a1 a2 suf1 suf2 : string) :
  tiene_guion_bajo a1 = false -> tiene_guion_bajo a2 = false ->
  In suf1 sufijos_metodo -> In suf2 sufijos_metodo ->
  String.append a1 suf1 = String.append a2 suf2 ->
  a1 = a2 /\ suf1 = suf2.
Proof.
  intros H1 H2 Hs1 Hs2 He.
  assert (Ha : a1 = a2).
  { rewrite <- (hasta_guion_bajo_append a1 suf1 H1 (sufijo_metodo_forma _ Hs1)).
    rewrite He. apply hasta_guion_bajo_append; auto using sufijo_metodo_forma. }
  subst a2. split; [reflexivity|]. eapply append_cancela; eauto.
Qed.

Lemma etiqueta_con_columna_inyectiva (e1 e2 c1 c2 : string) :
  String.length e1 = String.length e2 ->
  String.append e1 c1 = String.append e2 c2 ->
  e1 = e2 /\ c1 = c2.
Proof.
  revert e2. induction e1 as [|x e1 IH]; intros [|y e2] Hl He;
    try discriminate Hl.
  - auto.
  - change (String x (String.append e1 c1) = String y (String.append e2 c2))
      in He.
    injection He as -> He. simpl in Hl. injection Hl as Hl.
    destruct (IH _ Hl He) as [-> ->]. auto.
Qed.

Lemma NoDup_flat_map {A B} (f : A -> list B) (l : list A) :
  NoDup l ->
  (forall x, In x l -> NoDup (f x)) ->
  (forall x y z, In x l -> In y l -> In z (f x) -> In z (f y) -> x = y) ->
  NoDup (flat_map f l).
Proof.
  intros Hl Hf Hd. induction Hl as [|x l Hx Hl IH]; simpl; [constructor|].
  apply NoDup_app. split; [apply Hf; now left|]. split.
  - intros z Hz Hz'. apply list_elem_of_In in Hz, Hz'.
    apply in_flat_map in Hz' as (y & Hy & Hzy).
    assert (x = y) by (eapply Hd; eauto; [now left | now right]).
    subst y. apply Hx. now apply list_elem_of_In.
  - apply IH.
    + intros y Hy. apply Hf. now right.
    + intros y1 y2 z H1 H2. apply Hd; now right.
Qed.

Lemma NoDup_map_en {A B} (f : A -> B) (l : list A) :
  NoDup l ->
  (forall x y, In x l -> In y l -> f x = f y -> x = y) ->
  NoDup (map f l).
Proof.
  intros Hl Hf. induction Hl as [|x l Hx Hl IH]; simpl; constructor.
  - intros Hin. apply list_elem_of_In, in_map_iff in Hin as (y & He & Hy).
    assert (y = x) by (apply Hf; [now right | now left | exact He]).
    subst y. apply Hx. now apply list_elem_of_In.
  - apply IH. intros y1 y2 H1 H2. apply Hf; now right.
Qed.

Lemma NoDup_columnas_conjunto :
  NoDup (map nombre descriptores_filtrados) -> NoDup columnas_conjunto.
Proof.
  intros Hn. unfold columnas_conjunto. apply NoDup_flat_map.
  - apply (bool_decide_unpack _). vm_compute. reflexivity.
  - intros suf Hsuf.
    rewrite <- (map_map nombre (fun n => String.append n suf)).
    apply NoDup_map_en; [exact Hn|].
    intros n1 n2 H1 H2 He.
    apply in_map_iff in H1 as (d1 & <- & Hd1).
    apply in_map_iff in H2 as (d2 & <- & Hd2).
    apply (nombre_con_sufijo_inyectivo (nombre d1) (nombre d2) suf suf);
      auto using nombre_filtrado_sin_guion_bajo.
  - intros s1 s2 z Hs1 Hs2 H1 H2.
    apply in_map_iff in H1 as (d1 & <- & Hd1).
    apply in_map_iff in H2 as (d2 & He & Hd2). symmetry in He.
    apply (nombre_con_sufijo_inyectivo (nombre d1) (nombre d2) s1 s2);
      auto using nombre_filtrado_sin_guion_bajo.
Qed.

Lemma NoDup_nombres_de_estadisticas (cols : list string) :
  NoDup cols ->
  NoDup (flat_map (fun col => map (fun est => String.append est col)
                                  etiquetas_estadisticas) cols).
Proof.
  intros Hc.
  assert (Hlen : forall e1 e2,
             In e1 etiquetas_estadisticas -> In e2 etiquetas_estadisticas ->
             String.length e1 = String.length e2).
  { unfold etiquetas_estadisticas. simpl. intros e1 e2 H1 H2.
    repeat (destruct H1 as [<-|H1]; [|]); try contradiction;
      repeat (destruct H2 as [<-|H2]; [|]); try contradiction; reflexivity. }
  apply NoDup_flat_map; [exact Hc| |].
  - intros col _. apply NoDup_map_en.
    + apply (bool_decide_unpack _). vm_compute. reflexivity.
    + intros e1 e2 H1 H2 He.
      apply (etiqueta_con_columna_inyectiva e1 e2 col col); auto.
  - intros c1 c2 z _ _ H1 H2.
    apply in_map_iff in H1 as (e1 & <- & He1).
    apply in_map_iff in H2 as (e2 & He & He2). symmetry in He.
    apply (etiqueta_con_columna_inyectiva e1 e2 c1 c2); auto.
Qed.

Lemma analisis_columnas_finales (df_original : DataFrame) (r r' : rng)
  (out : salida) :
  analisis df_original r = (Devuelve out, r') ->
  columns (matriz_descriptores_estadisticos out) = columnas_finales out
  /\ columnas_finales out =
     flat_map (fun col => map (fun est => String.append est col)
                              etiquetas_estadisticas)
              columnas_conjunto.
Proof.
  intros H. pose proof (analisis_estadisticas _ _ _ _ H) as Hest.
  destruct (analisis_devuelve _ _ _ _ H)
    as (mb & r1 & r4 & mu & fm & ej1 & ej2 & _ & _ & _ & _ & _ & _ & Hbe & _
        & Hmu & Hnom & _ & Hasig & _).
  destruct (asignar_columnas_devuelve _ _ _ Hasig) as [_ ->].
  split; [reflexivity|].
  assert (Hmu' : estadisticas_distribucion out !! 1 = Some mu).
  { unfold buscar in Hmu.
    destruct (estadisticas_distribucion out !! 1); inversion Hmu; reflexivity. }
  assert (H1 : In 1 (indices_moleculas out)).
  { destruct (in_dec Nat.eq_dec 1 (indices_moleculas out)) as [Hi|Hn]; [exact Hi|].
    destruct (bucle_estadisticas_devuelve _ _ _ _ _ Hbe) as [_ Hout].
    rewrite (Hout 1 Hn), lookup_empty in Hmu'. discriminate. }
  destruct (Hest 1 H1) as (e1 & Hl1 & _ & Hi1 & Hc1 & _).
  rewrite Hmu' in Hl1. injection Hl1 as <-.
  rewrite Hnom, nombres_columnas_finales_orden, Hi1, Hc1. reflexivity.
Qed.

(** X4. The name of a statistics column determines the statistic, the
    descriptor name and the method suffix it was built from: no listed
    descriptor name has an underscore, every suffix is empty or starts with
    one, and the five labels have the same length.  So when the descriptors
    of the engine that are on the list have distinct names, the columns of a
    repetition table are pairwise distinct, and so are the columns of the
    matrix of statistics of a run that returns. *)
Theorem X4_nombres_sin_colisiones :
  NoDup (map nombre descriptores_filtrados) ->
  (forall d1 d2 suf1 suf2 est1 est2,
     In d1 descriptores_filtrados -> In d2 descriptores_filtrados ->
     In suf1 sufijos_metodo -> In suf2 sufijos_metodo ->
     In est1 etiquetas_estadisticas -> In est2 etiquetas_estadisticas ->
     String.append est1 (String.append (nombre d1) suf1)
       = String.append est2 (String.append (nombre d2) suf2) ->
     est1 = est2 /\ nombre d1 = nombre d2 /\ suf1 = suf2)
  /\ NoDup columnas_conjunto
  /\ (forall df_original r r' out,
        analisis df_original r = (Devuelve out, r') ->
        NoDup (columns (matriz_descriptores_estadisticos out))).
Proof.
  intros Hn. split; [|split].
  - intros d1 d2 suf1 suf2 est1 est2 Hd1 Hd2 Hs1 Hs2 He1 He2 H.
    assert (Hlen : String.length est1 = String.length est2).
    { unfold etiquetas_estadisticas in He1, He2. simpl in He1, He2.
      repeat (destruct He1 as [<-|He1]; [|]); try contradiction;
        repeat (destruct He2 as [<-|He2]; [|]); try contradiction;
        reflexivity. }
    destruct (etiqueta_con_columna_inyectiva _ _ _ _ Hlen H) as [-> Hc].
    split; [reflexivity|].
    apply (nombre_con_sufijo_inyectivo _ _ _ _
             (nombre_filtrado_sin_guion_bajo _ Hd1)
             (nombre_filtrado_sin_guion_bajo _ Hd2) Hs1 Hs2 Hc).
  - now apply NoDup_columnas_conjunto.
  - intros df r r' out H.
    destruct (analisis_columnas_finales _ _ _ _ H) as [-> ->].
    apply NoDup_nombres_de_estadisticas. now apply NoDup_columnas_conjunto.
Qed.

(** ** Order statistics *)
















(** ** Cleaning, cell by cell *)

Lemma limpia_celda_limpia (v w : valor) : limpia v w -> celda_limpia v w.
Proof.
  intros (x & Hx & ->). unfold celda_limpia, enmascarar in *.
  destruct (contiene_letra (astype_str v)).
  - simpl in Hx. inversion Hx. reflexivity.
  - simpl in Hx. destruct (float_de (astype_str v)) as [q|]; [|discriminate].
    inversion Hx. eauto.
Qed.

(** X6. When cleaning returns, the result has the columns of the input, as
    many rows, and in every row as many cells: nothing is removed.  Each
    cell depends on the text of the input cell alone: if the text has a
    letter (an error message, [nan], but also a float printed with an
    exponent) the cell is ["NA"]; otherwise it is the float the text
    denotes. *)
Theorem X6_limpieza_celda_a_celda (matriz_completa matriz_numerica : DataFrame) :
  limpiar matriz_completa = Devuelve matriz_numerica ->
  columns matriz_numerica = columns matriz_completa
  /\ length (filas matriz_numerica) = length (filas matriz_completa)
  /\ Forall2 (fun f g => length g = length f)
       (filas matriz_completa) (filas matriz_numerica)
  /\ Forall2 (Forall2 celda_limpia)
       (filas matriz_completa) (filas matriz_numerica).
Proof.
  intros H. destruct (limpiar_devuelve _ _ H) as [Hc Hall].
  split; [exact Hc|]. split; [now apply limpiar_filas|]. split.
  - eapply Forall2_impl; [exact Hall|]. intros f g Hfg.
    symmetry. eapply Forall2_length; eauto.
  - eapply Forall2_impl; [exact Hall|]. intros f g Hfg.
    eapply Forall2_impl; [exact Hfg|]. apply limpia_celda_limpia.
Qed.

Lemma para_todos_casos {A B} (f : A -> resultado B) (l : list A) :
  match para_todos f l with
  | Devuelve l' => Forall2 (fun a b => f a = Devuelve b) l l'
  | Lanza e => Exists (fun a => f a = Lanza e) l
  end.
Proof.
  induction l as [|a l IH]; simpl; [constructor|].
  destruct (f a) as [b|e] eqn:Hb; simpl; [|now constructor].
  destruct (para_todos f l) as [bs|e]; simpl.
  - now constructor.
  - now apply Exists_cons_tl.
Qed.

Lemma Forall2_existe_l {A B} (P : A -> B -> Prop) (l : list A) (k : list B) :
  Forall2 P l k -> Forall (fun x => exists y, P x y) l.
Proof. induction 1; constructor; eauto. Qed.

Lemma astype_float_enmascarar_lanza (v : valor) (e : excepcion) :
  astype_float (enmascarar v) = Lanza e -> e = ValueError /\ celda_rechazada v.
Proof.
  unfold enmascarar, celda_rechazada.
  destruct (contiene_letra (astype_str v)); simpl; [discriminate|].
  destruct (float_de (astype_str v)); [discriminate|].
  intros H. inversion H. auto.
Qed.

Lemma astype_float_enmascarar_devuelve (v x : valor) :
  astype_float (enmascarar v) = Devuelve x -> ~ celda_rechazada v.
Proof.
  unfold enmascarar, celda_rechazada.
  destruct (contiene_letra (astype_str v)); simpl; [intros _ [? _]; discriminate|].
  destruct (float_de (astype_str v)); [intros _ [_ ?]; discriminate|].
  discriminate.
Qed.

(** X7. Cleaning raises exactly when some cell has a text without letters
    that the float conversion refuses, and then it raises [ValueError];
    when it returns, the input had no such cell. *)
Theorem X7_limpieza_y_ValueError (matriz_completa : DataFrame) :
  match limpiar matriz_completa with
  | Devuelve _ =>
      Forall (Forall (fun v => ~ celda_rechazada v)) (filas matriz_completa)
  | Lanza e =>
      e = ValueError
      /\ Exists (Exists celda_rechazada) (filas matriz_completa)
  end.
Proof.
  unfold limpiar.
  pose proof (para_todos_casos (para_todos astype_float)
                (map (map enmascarar) (filas matriz_completa))) as H.
  destruct (para_todos (para_todos astype_float)
              (map (map enmascarar) (filas matriz_completa))) as [fl|e]; simpl.
  - apply Forall2_fmap_l, Forall2_existe_l in H.
    eapply Forall_impl; [exact H|]. intros f (g & Hg).
    pose proof (para_todos_casos astype_float (map enmascarar f)) as Hf.
    simpl in Hg. rewrite Hg in Hf.
    apply Forall2_fmap_l, Forall2_existe_l in Hf.
    eapply Forall_impl; [exact Hf|]. intros v (x & Hx).
    eapply astype_float_enmascarar_devuelve; eauto.
  - apply Exists_fmap in H.
    assert (He : Exists (fun f => e = ValueError /\ Exists celda_rechazada f)
                        (filas matriz_completa)).
    { eapply Exists_impl; [exact H|]. intros f Hf. simpl in Hf.
      pose proof (para_todos_casos astype_float (map enmascarar f)) as Hc.
      rewrite Hf in Hc. apply Exists_fmap in Hc.
      apply Exists_exists in Hc as (v & Hv & Hl). simpl in Hl.
      destruct (astype_float_enmascarar_lanza _ _ Hl) as [-> Hr].
      split; [reflexivity|]. apply Exists_exists. eauto. }
    apply Exists_exists in He as (f & Hf & -> & Hr).
    split; [reflexivity|]. apply Exists_exists. eauto.
Qed.

(** ** Input that stops the run *)




(** ** Reaching the cleaning stage *)




(** ** Layout of the exported table *)





(** X11. In a run that returns, the 2D part of the cleaned matrix is aligned
    with the input: for every input position, the first cells of the row
    are the cleaned 2D descriptors of the molecule parsed from that row, one
    for each descriptor of the engine that needs no 3D structure, in the
    order of the engine. *)
Theorem X11_descriptores_2d_alineados (df_original : DataFrame) (r r' : rng)
  (out : salida) (i : nat) (molecula : mol) :
  analisis df_original r = (Devuelve out, r') ->
  moleculas_para_conformaciones out !! i = Some molecula ->
  let ds := List.filter (fun d => negb (requiere_3D d)) descriptores_motor in
  exists fila,
    filas (matriz_numerica out) !! i = Some fila
    /\ Forall2 celda_limpia (map (fun d => evaluar_2D d molecula) ds)
               (take (length ds) fila).
Proof.
  intros H Hm. cbv zeta.
  destruct (analisis_filas _ _ _ _ H) as (Hn & _ & _ & _ & H2 & Hnum & _).
  destruct (analisis_devuelve _ _ _ _ H)
    as (mb & r1 & r4 & mu & fm & ej1 & ej2 & _ & _ & _ & _ & _ & _ & _
        & _ & _ & _ & _ & _ & H2d & Hlim & _).
  destruct (limpiar_devuelve _ _ Hlim) as [_ Hall].
  assert (Hi : i < length (filas df_original)).
  { rewrite <- Hn. eapply lookup_lt_Some; eauto. }
  destruct (lookup_lt_is_Some_2 (filas (matriz_numerica out)) i) as (fila & Hf);
    [now rewrite Hnum|].
  exists fila. split; [exact Hf|].
  destruct (proj1 (Forall2_same_length_lookup _ _ _) Hall) as [_ Hq].
  assert (Hmax : i < Nat.max (length (filas (matriz_descriptores_2d out)))
                    (length (filas (matriz_descriptores_estadisticos out))))
    by lia.
  specialize (Hq i _ fila (lookup_concat_axis1 _ _ i Hmax) Hf).
  apply Forall2_app_inv_l in Hq as (fa & fb & Ha & _ & ->).
  assert (Hrow : fila_o_faltante (matriz_descriptores_2d out) i
                 = map (fun d => evaluar_2D d molecula)
                       (List.filter (fun d => negb (requiere_3D d))
                                    descriptores_motor)).
  { rewrite H2d. unfold fila_o_faltante, calculador_2d. cbn [filas columns].
    rewrite list_lookup_fmap, Hm. reflexivity. }
  rewrite Hrow in Ha.
  assert (Hlen : length fa
                 = length (List.filter (fun d => negb (requiere_3D d))
                                       descriptores_motor)).
  { apply Forall2_length in Ha. now rewrite length_map in Ha. }
  rewrite <- Hlen, take_app_length.
  eapply Forall2_impl; [exact Ha|]. apply limpia_celda_limpia.
Qed.

(** ** Size of the descriptor set *)

Lemma sublist_filter {A} (f : A -> bool) (l : list A) :
  sublist (List.filter f l) l.
Proof.
  induction l as [|a l IH]; cbn [List.filter]; [constructor|].
  destruct (f a); [now apply sublist_skip | now apply sublist_cons].
Qed.

Lemma nombre_filtrado_en_lista (d : descriptor) :
  In d descriptores_filtrados -> In (nombre d) nombres_descriptores_3d.
Proof.
  unfold descriptores_filtrados. intros Hd.
  apply List.filter_In in Hd as [_ Hd].
  apply existsb_exists in Hd as (n & Hn & He).
  apply String.eqb_eq in He. now subst n.
Qed.

(** X12. The working descriptor set keeps the order of the engine and holds
    exactly its descriptors whose name is one of the 213 listed; a listed
    name the engine does not offer is left out without an error.  When the
    selected descriptors have distinct names there are at most 213 of them,
    hence at most 1278 columns in a repetition table. *)
Theorem X12_conjunto_de_descriptores :
  (forall d, In d descriptores_filtrados <->
             In d descriptores_motor /\ In (nombre d) nombres_descriptores_3d)
  /\ sublist descriptores_filtrados descriptores_motor
  /\ length nombres_descriptores_3d = 213
  /\ (NoDup (map nombre descriptores_filtrados) ->
      length descriptores_filtrados <= 213
      /\ length columnas_conjunto <= 1278).
Proof.
  split; [|split; [|split]].
  - intros d. unfold descriptores_filtrados. rewrite List.filter_In.
    split; intros [Hd Hn]; (split; [exact Hd|]).
    + apply existsb_exists in Hn as (n & Hn & He).
      apply String.eqb_eq in He. now subst n.
    + apply existsb_exists. exists (nombre d). split; [exact Hn|].
      apply String.eqb_refl.
  - apply sublist_filter.
  - reflexivity.
  - intros Hn.
    assert (Hle : length descriptores_filtrados <= 213).
    { rewrite <- (length_map nombre).
      change 213 with (length nombres_descriptores_3d).
      apply NoDup_incl_length; [now apply NoDup_ListNoDup|].
      intros n Hin. apply in_map_iff in Hin as (d & <- & Hd).
      now apply nombre_filtrado_en_lista. }
    split; [exact Hle|]. rewrite length_columnas_conjunto. lia.
Qed.

(** ** Errors of the gathering loop *)

(** X13. Gathering the rows of a molecule returns exactly when every
    repetition has a table with a row at the molecule's position.  It stops
    at the first repetition that has none: with the [KeyError] of that
    repetition when the dictionary has no table for it, with [IndexError]
    when the table is too short. *)
Theorem X13_errores_de_recopilar (resultados : gmap nat DataFrame)
  (lista_iteraciones : list nat) (indice_molecula : nat)
  (valores_molecula : DataFrame) :
  match recopilar resultados lista_iteraciones indice_molecula
          valores_molecula with
  | Devuelve _ =>
      Forall (fun it => exists tabla,
                  resultados !! it = Some tabla
                  /\ indice_molecula < length (filas tabla))
             lista_iteraciones
  | Lanza e =>
      exists antes it despues,
        lista_iteraciones = antes ++ it :: despues
        /\ Forall (fun it' => exists tabla,
                       resultados !! it' = Some tabla
                       /\ indice_molecula < length (filas tabla))
                  antes
        /\ ((resultados !! it = None /\ e = KeyError it)
            \/ (exists tabla,
                   resultados !! it = Some tabla
                   /\ length (filas tabla) <= indice_molecula
                   /\ e = IndexError))
  end.
Proof.
  revert valores_molecula.
  induction lista_iteraciones as [|it its IH]; intros vm; simpl; [constructor|].
  unfold buscar, iloc.
  destruct (resultados !! it) as [tabla|] eqn:Ht; simpl.
  - destruct (filas tabla !! indice_molecula) as [f|] eqn:Hf; simpl.
    + specialize (IH (append_serie vm (columns tabla) f)).
      assert (Hok : exists t, resultados !! it = Some t
                              /\ indice_molecula < length (filas t)).
      { exists tabla. split; [exact Ht|]. eapply lookup_lt_Some; eauto. }
      destruct (recopilar resultados its indice_molecula
                  (append_serie vm (columns tabla) f)) as [vm'|e].
      * now constructor.
      * destruct IH as (antes & it' & despues & -> & Hfa & Hcase).
        exists (it :: antes), it', despues. split; [reflexivity|].
        split; [now constructor | exact Hcase].
    + exists [], it, its. split; [reflexivity|]. split; [constructor|].
      right. exists tabla. split; [exact Ht|]. split; [|reflexivity].
      now apply lookup_ge_None_1.
  - exists [], it, its. split; [reflexivity|]. split; [constructor|].
    left. auto.
Qed.

End Modelo.

(** * The model at work *)




(** C9, the claim as written, fails: with version 3 the generator does not
    raise. *)
Lemma C9_contraejemplo :
  ~ exists e r',
      generar_conformacion_etkdg (M := Juguete.motor) [(1, 0)] 3 0
        = (Lanza e, r').
Proof. intros (e & r' & H). vm_compute in H. discriminate H. Qed.

Lemma C9_testigo :
  (3 <> 1)%Z /\ (3 <> 2)%Z
  /\ generar_conformacion_etkdg (M := Juguete.motor) [(1, 0)] 3 0
     = (Devuelve None, 0).
Proof.
  split; [lia|]. split; [lia|].
  apply (C9_version_invalida_devuelve_None (M := Juguete.motor) (1, 0) [] 3 0);
    lia.
Defined.

(** C3: the cell with text becomes ["NA"]; its row and its column stay. *)
Theorem C3_limpieza_conserva_fila_y_columna :
  limpiar (M := Juguete.motor) Juguete.matriz_con_texto
  = Devuelve {| columns := ["A"; "B"]%string;
                filas := [ [Num 1; Obj "NA"]; [Num 2; Num 3] ] |}.
Proof. vm_compute. reflexivity. Qed.

Lemma df_cuatro_devuelve :
  Juguete.devolvio (analisis (M := Juguete.motor) Juguete.df_cuatro 0) = true.
Proof. vm_compute. reflexivity. Qed.





(** C5, the claim as written, fails: the value missing in the input column
    [id] of [df_cuatro] is still missing in the exported table. *)
Lemma C5_contraejemplo :
  exists out r',
    analisis (M := Juguete.motor) Juguete.df_cuatro 0 = (Devuelve out, r')
    /\ existsb (existsb es_faltante) (filas (dataset_final out)) = true.
Proof.
  assert (Hb : match analisis (M := Juguete.motor) Juguete.df_cuatro 0 with
               | (Devuelve out, _) =>
                   existsb (existsb es_faltante) (filas (dataset_final out))
               | _ => false
               end = true) by (vm_compute; reflexivity).
  destruct (analisis (M := Juguete.motor) Juguete.df_cuatro 0)
    as [[out|e] r']; [|discriminate Hb].
  exists out, r'. split; [reflexivity | exact Hb].
Qed.

Lemma C5_testigo :
  exists out r',
    analisis (M := Juguete.motor) Juguete.df_cuatro 0 = (Devuelve out, r')
    /\ Forall (Forall (fun w => w = Obj "NA" \/ exists q, w = Num q))
              (filas (matriz_numerica out)).
Proof.
  pose proof df_cuatro_devuelve as Hb.
  destruct (analisis (M := Juguete.motor) Juguete.df_cuatro 0)
    as [[out|e] r'] eqn:H; [|discriminate Hb].
  exists out, r'. split; [reflexivity|].
  apply (C5_faltantes_como_NA (M := Juguete.motor) _ _ _ _ H).
Defined.

Lemma C10_testigo :
  exists r',
    analisis (M := Juguete.motor) Juguete.df_dos 0 = (Lanza (KeyError 2), r').
Proof.
  assert (Hc : cargar_moleculas (M := Juguete.motor) Juguete.df_dos
               = Devuelve [Some (1, 0); Some (2, 0)])
    by (vm_compute; reflexivity).
  assert (Hv : moleculas_validas (M := Juguete.motor) [Some (1, 0); Some (2, 0)]
               = Devuelve [(1, 0); (2, 0)])
    by (vm_compute; reflexivity).
  destruct (C10_tres_moleculas_o_KeyError (M := Juguete.motor) _ 0 _ _ Hc Hv)
    as (_ & _ & Hk).
  apply Hk; [vm_compute; discriminate | vm_compute; lia].
Defined.

Lemma X4_testigo :
  NoDup (map nombre (descriptores_filtrados (M := Juguete.motor)))
  /\ NoDup (columnas_conjunto (M := Juguete.motor)).
Proof.
  assert (Hn : NoDup (map nombre (descriptores_filtrados (M := Juguete.motor))))
    by (apply (bool_decide_unpack _); vm_compute; reflexivity).
  split; [exact Hn|].
  apply (X4_nombres_sin_colisiones (M := Juguete.motor) Hn).
Defined.





Lemma X6_testigo :
  exists numerica,
    limpiar (M := Juguete.motor) Juguete.matriz_con_texto = Devuelve numerica
    /\ columns numerica = columns Juguete.matriz_con_texto
    /\ length (filas numerica) = 2.
Proof.
  destruct (limpiar (M := Juguete.motor) Juguete.matriz_con_texto)
    as [numerica|e] eqn:H; [|vm_compute in H; discriminate H].
  exists numerica. split; [reflexivity|].
  destruct (X6_limpieza_celda_a_celda (M := Juguete.motor) _ _ H)
    as (Hc & Hl & _).
  split; [exact Hc | exact Hl].
Defined.

Lemma X11_testigo :
  exists out r' fila,
    analisis (M := Juguete.motor) Juguete.df_cuatro 0 = (Devuelve out, r')
    /\ filas (matriz_numerica out) !! 0 = Some fila
    /\ take 2 fila = [Num 1; Obj "NA"].
Proof.
  assert (Hb : match analisis (M := Juguete.motor) Juguete.df_cuatro 0 with
               | (Devuelve out, _) =>
                   match moleculas_para_conformaciones out !! 0 with
                   | Some m => Nat.eqb (fst m) 1 && Nat.eqb (snd m) 0
                   | None => false
                   end
               | _ => false
               end = true) by (vm_compute; reflexivity).
  destruct (analisis (M := Juguete.motor) Juguete.df_cuatro 0)
    as [[out|e] r'] eqn:H; [|discriminate Hb].
  destruct (moleculas_para_conformaciones out !! 0) as [[a b]|] eqn:Hm;
    [|discriminate Hb].
  apply andb_true_iff in Hb as [Ha Hb'].
  apply Nat.eqb_eq in Ha, Hb'. simpl in Ha, Hb'. subst a b.
  destruct (X11_descriptores_2d_alineados (M := Juguete.motor) _ _ _ _ 0 _ H Hm)
    as (fila & Hf & Hall).
  exists out, r', fila. split; [reflexivity|]. split; [exact Hf|].
  cbv zeta in Hall.
  change (length (List.filter (fun d => negb (requiere_3D d))
                    (descriptores_motor (Motor := Juguete.motor)))) with 2
    in Hall.
  destruct (take 2 fila) as [|w1 [|w2 [|w3 l]]];
    inversion Hall as [|? ? ? ? H1 Hr]; subst;
    inversion Hr as [|? ? ? ? H2 Hr']; subst; inversion Hr'; subst.
  vm_compute in H1, H2. destruct H1 as (q & Hq & ->). injection Hq as <-.
  subst w2. reflexivity.
Defined.

Lemma X12_testigo :
  NoDup (map nombre (descriptores_filtrados (M := Juguete.motor)))
  /\ length (descriptores_filtrados (M := Juguete.motor)) <= 213.
Proof.
  assert (Hn : NoDup (map nombre (descriptores_filtrados (M := Juguete.motor))))
    by (apply (bool_decide_unpack _); vm_compute; reflexivity).
  split; [exact Hn|].
  destruct (X12_conjunto_de_descriptores (M := Juguete.motor))
    as (_ & _ & _ & Hb).
  apply (Hb Hn).
Defined.
